(** * grass.script.raster: a shallow embedding of [lib/python/script/raster.py]

    The module is a thin layer over external GRASS tools.  Every function is
    embedded as a computation in a small trace-and-exception monad: the trace
    records, in order, each call made to a collaborator that starts a process
    or emits a message; the outcome is a returned value, a raised Python
    exception, or the termination caused by [fatal]. *)

From Stdlib Require Import PrimFloat ZArith String Ascii List Lia.
From stdpp Require Import gmap strings list.

Local Open Scope string_scope.
Local Open Scope list_scope.

(** ** Python values *)

(** The values handed to a tool as keyword arguments: [None], [str], [int],
    [bool], and the [env] dictionary of the child process. *)
Inductive pyval : Type :=
| VNone
| VStr (s : string)
| VInt (z : Z)
| VBool (b : bool)
| VEnv (e : gmap string string).

(** A value of the dictionary [raster_info] returns: the reporter's text,
    a [float], or [None]. *)
Inductive info_value : Type :=
| IText (s : string)
| IFloat (f : float)
| INone.

(** The exceptions the module can meet. *)
Inductive exn : Type :=
| KeyError (key : string)
| ValueError
| TypeError
| AttributeError
| IndexError
| CalledModuleError (module : string).

(** How a call ends: it returns, an exception escapes, or [fatal] ends the
    operation with a user-facing message. *)
Inductive outcome (A : Type) : Type :=
| Returned (a : A)
| Raised (e : exn)
| FatalExit (msg : string).
Arguments Returned {A} a.
Arguments Raised {A} e.
Arguments FatalExit {A} msg.

(** Keyword arguments of a tool invocation, in the order the source gives them. *)
Abbreviation kwargs := (list (string * pyval)).

(** Code that touches no collaborator runs in [outcome] itself. *)
#[global] Instance outcome_ret : MRet outcome := fun A (a : A) => Returned a.

#[global] Instance outcome_bind : MBind outcome := fun A B (k : A -> outcome B) o =>
  match o with
  | Returned a => k a
  | Raised e => Raised e
  | FatalExit msg => FatalExit msg
  end.

(** [d[k]] on a dictionary with string keys *)
Definition getitem {V} (d : gmap string V) (k : string) : outcome V :=
  match d !! k with
  | Some v => Returned v
  | None => Raised (KeyError k)
  end.

(** ** Observable events *)

(** The object [feed_command] returns: a running child process. *)
Record Popen : Type := { child_pid : Z }.

Inductive event : Type :=
| EvRunCommand (prog : string) (args : kwargs)
| EvReadCommand (prog : string) (args : kwargs)
| EvWriteCommand (prog : string) (args : kwargs) (stdin : string)
| EvFeedCommand (prog : string) (args : kwargs) (p : Popen)
| EvStdinWrite (p : Popen) (text : string)
| EvStdinClose (p : Popen)
| EvWarning (msg : string)
| EvFatal (msg : string).

(** ** The monad *)

Definition M (A : Type) : Type := list event -> outcome A * list event.

#[global] Instance M_ret : MRet M := fun A (a : A) t => (Returned a, t).

#[global] Instance M_bind : MBind M := fun A B (k : A -> M B) (m : M A) t =>
  match m t with
  | (Returned a, t') => k a t'
  | (Raised e, t') => (Raised e, t')
  | (FatalExit msg, t') => (FatalExit msg, t')
  end.

Definition raise {A} (e : exn) : M A := fun t => (Raised e, t).

Definition emit (ev : event) : M unit := fun t => (Returned tt, t ++ [ev]).

(** [try: m except CalledModuleError: h] *)
Definition except_CalledModuleError {A} (m : M A) (h : M A) : M A :=
  fun t =>
    match m t with
    | (Raised (CalledModuleError _), t') => h t'
    | r => r
    end.

(** A computation that touches no collaborator. *)
Definition lift {A} (o : outcome A) : M A := fun t => (o, t).

(** Run a computation from the empty trace. *)
Definition run {A} (m : M A) : outcome A * list event := m [].

(** ** Collaborators

    Everything [raster.py] imports: Python built-ins and the standard
    library, [grass.script.utils], [grass.script.core] and the process
    environment. *)

(** Python built-ins and helper functions.  [None] stands for the
    [ValueError] the Python function raises on text it cannot parse. *)
Record pylib : Type := {
  (** [float(s)] on a string *)
  py_float : string -> option float;
  (** ['%f' % x] *)
  format_f : float -> string;
  (** [hash((pid, t))] *)
  py_hash : Z -> float -> Z;
  (** [_(msg)], the message catalogue *)
  gettext : string -> string;
  (** [utils.float_or_dms] *)
  float_or_dms : string -> option float;
  (** [utils.parse_key_val] *)
  parse_key_val : string -> gmap string string
}.

(** The GRASS session and the process the module runs in. *)
Record session : Type := {
  (** [gisenv()['MAPSET']] *)
  gisenv_MAPSET : string;
  (** [find_file(name=...)['mapset']]: the mapset the raster is found in *)
  find_file_mapset : string -> option string;
  (** [os.environ] *)
  environ : gmap string string;
  (** [os.getpid()] *)
  getpid : Z;
  (** [time.time()] *)
  time_time : float;
  (** text captured from a tool run by [read_command] *)
  tool_stdout : string -> kwargs -> string;
  (** exit status of a tool run by [write_command] *)
  tool_exit : string -> kwargs -> string -> Z;
  (** the [Popen] object [feed_command] creates *)
  popen : string -> kwargs -> Popen
}.

(** ** Python strings and lists *)

(** [l[n]] on a list *)
Definition index {A} (l : list A) (n : nat) : outcome A :=
  match l !! n with
  | Some v => Returned v
  | None => Raised IndexError
  end.

(** [s.split(c)] for a separator [c] of one character *)
Fixpoint split_on (c : ascii) (s : string) : list string :=
  match s with
  | EmptyString => [EmptyString]
  | String a s' =>
      if Ascii.eqb a c then EmptyString :: split_on c s'
      else match split_on c s' with
           | [] => [String a EmptyString]
           | f :: fs => String a f :: fs
           end
  end.

Definition LF : ascii := ascii_of_nat 10.
Definition CR : ascii := ascii_of_nat 13.

(** [s.splitlines()] on a byte string: lines end at LF, CR or CR LF, and the
    line ends are dropped. *)
Fixpoint splitlines (s : string) : list string :=
  match s with
  | EmptyString => []
  | String a s' =>
      if Ascii.eqb a LF then EmptyString :: splitlines s'
      else if Ascii.eqb a CR then
        match s' with
        | String b s'' =>
            if Ascii.eqb b LF then EmptyString :: splitlines s''
            else EmptyString :: splitlines s'
        | EmptyString => [EmptyString]
        end
      else match splitlines s' with
           | [] => [String a EmptyString]
           | l :: ls => String a l :: ls
           end
  end.

(** ** [string.Template]

    The class attribute [pattern] of [string.Template] is a regular
    expression compiled with [re.IGNORECASE].  It matches the delimiter [$]
    followed by the first of four alternatives that fits: [escaped], a
    second [$]; [named], an identifier (a letter or underscore, then
    letters, digits and underscores, as many as there are); [braced], such
    an identifier between [{] and [}]; [invalid], the empty string.
    [substitute] replaces the matches from left to right. *)

Definition is_id_start (c : ascii) : bool :=
  let n := nat_of_ascii c in
  Nat.eqb n 95 || (Nat.leb 97 n && Nat.leb n 122) || (Nat.leb 65 n && Nat.leb n 90).

Definition is_id_char (c : ascii) : bool :=
  let n := nat_of_ascii c in
  is_id_start c || (Nat.leb 48 n && Nat.leb n 57).

(** The longest prefix of [s] matching [[_a-z0-9]*], and what follows it. *)
Fixpoint span_id_chars (s : string) : string * string :=
  match s with
  | String c s' =>
      if is_id_char c then
        let (i, r) := span_id_chars s' in (String c i, r)
      else (EmptyString, s)
  | EmptyString => (EmptyString, EmptyString)
  end.

(** [[_a-z][_a-z0-9]*] at the head of [s]. *)
Definition match_id (s : string) : option (string * string) :=
  match s with
  | String c s' =>
      if is_id_start c then
        let (i, r) := span_id_chars s' in Some (String c i, r)
      else None
  | EmptyString => None
  end.

(** What the pattern finds in a template. *)
Inductive token : Type :=
| TLit (c : ascii)
| TEscaped
| TNamed (id : string)
| TBraced (id : string)
| TInvalid.

(** The alternative that matches after a delimiter, and the text after the
    match. *)
Definition match_delim (rest : string) : token * string :=
  match rest with
  | String c r =>
      if Ascii.eqb c "$" then (TEscaped, r)
      else match match_id rest with
           | Some (i, r') => (TNamed i, r')
           | None =>
               if Ascii.eqb c "{" then
                 match match_id r with
                 | Some (i, String c' r'') =>
                     if Ascii.eqb c' "}" then (TBraced i, r'')
                     else (TInvalid, rest)
                 | _ => (TInvalid, rest)
                 end
               else (TInvalid, rest)
           end
  | EmptyString => (TInvalid, EmptyString)
  end.

(** The matches of the pattern and the text between them, in order.  Every
    step consumes a character, so [scan (String.length s) s] reads all of
    [s] (lemma [scan_fuel]). *)
Fixpoint scan (fuel : nat) (s : string) : list token :=
  match fuel with
  | O => []
  | S fuel' =>
      match s with
      | EmptyString => []
      | String c rest =>
          if Ascii.eqb c "$" then
            let (tok, rest') := match_delim rest in tok :: scan fuel' rest'
          else TLit c :: scan fuel' rest
      end
  end.

Definition tokens (template : string) : list token :=
  scan (String.length template) template.

(** The helper [convert] of [substitute], applied match by match; text
    outside the matches is copied. *)
Fixpoint convert_all (ts : list token) (mapping : gmap string string)
  : outcome string :=
  match ts with
  | [] => Returned EmptyString
  | TLit c :: ts' =>
      r ← convert_all ts' mapping; Returned (String c r)
  | TEscaped :: ts' =>
      r ← convert_all ts' mapping; Returned (String "$" r)
  | TNamed id :: ts' | TBraced id :: ts' =>
      val ← getitem mapping id;
      r ← convert_all ts' mapping; Returned (val +:+ r)
  | TInvalid :: _ => Raised ValueError
  end.

(** [string.Template(template).substitute] with the keyword arguments
    [mapping] *)
Definition substitute (template : string) (mapping : gmap string string)
  : outcome string :=
  convert_all (tokens template) mapping.

(** The placeholders of a template: the names its [named] and [braced]
    matches ask for. *)
Definition placeholder (template : string) (id : string) : Prop :=
  TNamed id ∈ tokens template ∨ TBraced id ∈ tokens template.

(** The argument [map] of [raster_what]: one name or a list of names. *)
Inductive map_arg : Type :=
| MapName (name : string)
| MapList (names : list string).

(** The argument [coord] of [raster_what]: one pair as a tuple, or a
    sequence of pairs. *)
Inductive coord_arg : Type :=
| CoordTuple (e n : float)
| CoordList (pairs : list (float * float)).

(** ** The module *)

Section Raster.
Context (py : pylib) (w : session).

(** *** Functions of [grass.script.core] *)

(** Modelled from the spec: [run_command] of [lib/python/script/core.py]:
    "run a named external tool with arguments and flags and wait". *)
Definition run_command (prog : string) (args : kwargs) : M unit :=
  emit (EvRunCommand prog args).

(** Modelled from the spec: [read_command] of [lib/python/script/core.py]:
    "run a named external tool with arguments and flags and wait, capturing
    text output". *)
Definition read_command (prog : string) (args : kwargs) : M string :=
  emit (EvReadCommand prog args);; mret (tool_stdout w prog args).

(** Modelled from the spec: [write_command] of [lib/python/script/core.py]:
    the tool is run with [stdin] on its standard input and waited for;
    [mapcalc] catches the [CalledModuleError] a nonzero exit raises. *)
Definition write_command (prog : string) (args : kwargs) (stdin : string)
  : M unit :=
  emit (EvWriteCommand prog args stdin);;
  if Z.eqb (tool_exit w prog args stdin) 0%Z then mret tt
  else raise (CalledModuleError prog).

(** Modelled from the spec: [feed_command] of [lib/python/script/core.py]:
    "run without waiting, returning a handle with a writable input
    stream". *)
Definition feed_command (prog : string) (args : kwargs) : M Popen :=
  let p := popen w prog args in
  emit (EvFeedCommand prog args p);; mret p.

(** Modelled from the spec: [warning] of [lib/python/script/core.py], the
    warning channel. *)
Definition warning (msg : string) : M unit := emit (EvWarning msg).

(** Modelled from the spec: [fatal] of [lib/python/script/core.py], the
    fatal-error channel: the message is emitted and the operation ends
    there. *)
Definition fatal {A} (msg : string) : M A :=
  fun t => (FatalExit msg, t ++ [EvFatal msg]).

(** *** [raster_history] *)

(** The text of
    ["Unable to write history for <%(map)s>. Raster map <%(map)s> not found
     in current mapset." % {'map': map, 'map': map}]. *)
Definition history_message (map : string) : string :=
  "Unable to write history for <" +:+ map +:+ ">. Raster map <" +:+ map
    +:+ "> not found in current mapset.".

Definition raster_history (map : string) : M bool :=
  let current_mapset := gisenv_MAPSET w in
  if decide (find_file_mapset w map = Some current_mapset) then
    cmdline ← lift (getitem (environ w) "CMDLINE");
    run_command "r.support" [("map", VStr map); ("history", VStr cmdline)];;
    mret true
  else
    warning (gettext py (history_message map));;
    mret false.

(** *** [raster_info] *)

(** [float(v)] *)
Definition float_ (v : info_value) : outcome info_value :=
  match v with
  | IText s =>
      match py_float py s with
      | Some f => Returned (IFloat f)
      | None => Raised ValueError
      end
  | IFloat f => Returned (IFloat f)
  | INone => Raised TypeError
  end.

(** The local function [float_or_null]. *)
Definition float_or_null (v : info_value) : outcome info_value :=
  match v with
  | IText s => if decide (s = "NULL") then Returned INone else float_ v
  | _ => float_ v
  end.

(** [float_or_dms(v)]; on anything but text the call of [v.split] fails. *)
Definition float_or_dms_ (v : info_value) : outcome info_value :=
  match v with
  | IText s =>
      match float_or_dms py s with
      | Some f => Returned (IFloat f)
      | None => Raised ValueError
      end
  | _ => Raised AttributeError
  end.

(** [for k in ks: kv[k] = f(kv[k])] *)
Fixpoint coerce_fields (f : info_value -> outcome info_value)
    (ks : list string) (kv : gmap string info_value)
  : outcome (gmap string info_value) :=
  match ks with
  | [] => Returned kv
  | k :: ks' =>
      v ← getitem kv k;
      v' ← f v;
      coerce_fields f ks' (<[k := v']> kv)
  end.

Definition raster_info (map : string) : M (gmap string info_value) :=
  s ← read_command "r.info" [("flags", VStr "gre"); ("map", VStr map)];
  let kv := IText <$> parse_key_val py s in
  kv ← lift (coerce_fields float_or_null ["min"; "max"] kv);
  kv ← lift (coerce_fields float_ ["north"; "south"; "east"; "west"] kv);
  kv ← lift (coerce_fields float_or_dms_ ["nsres"; "ewres"] kv);
  mret kv.

(** *** [mapcalc] and [mapcalc_start] *)

(** [seed == 'auto'] *)
Definition is_auto (seed : pyval) : bool :=
  match seed with
  | VStr s => String.eqb s "auto"
  | _ => false
  end.

(** The keyword arguments both entry points hand to [r.mapcalc]. *)
Definition mapcalc_args (env seed : pyval) (quiet verbose overwrite : bool)
  : kwargs :=
  [("file", VStr "-"); ("env", env); ("seed", seed);
   ("quiet", VBool quiet); ("verbose", VBool verbose);
   ("overwrite", VBool overwrite)].

Definition mapcalc (exp : string) (quiet verbose overwrite : bool)
    (seed env : pyval) (kw : gmap string string) : M unit :=
  let seed :=
    if is_auto seed
    then VInt (py_hash py (getpid w) (time_time w) mod (2 ^ 32))%Z
    else seed in
  e ← lift (substitute exp kw);
  except_CalledModuleError
    (write_command "r.mapcalc"
       (mapcalc_args env seed quiet verbose overwrite) e)
    (fatal (gettext py "An error occurred while running r.mapcalc")).

Definition mapcalc_start (exp : string) (quiet verbose overwrite : bool)
    (seed env : pyval) (kw : gmap string string) : M Popen :=
  let seed :=
    if is_auto seed
    then VInt (py_hash py (getpid w) (time_time w) mod (2 ^ 32))%Z
    else seed in
  e ← lift (substitute exp kw);
  p ← feed_command "r.mapcalc"
       (mapcalc_args env seed quiet verbose overwrite);
  emit (EvStdinWrite p e);;
  emit (EvStdinClose p);;
  mret p.

(** *** [raster_what] *)

(** [for j in range(len(labels)):
       tmp_dict[map_name][labels[j]] = line[i*len(labels)+j]] *)
Fixpoint fill_labels (labels line : list string) (i : nat) (js : list nat)
    (d : gmap string string) : outcome (gmap string string) :=
  match js with
  | [] => Returned d
  | j :: js' =>
      v ← index line (i * length labels + j);
      l ← index labels j;
      fill_labels labels line i js' (<[l := v]> d)
  end.

(** [for i, map_name in enumerate(map_list): ...; data.append(tmp_dict)],
    from index [i] on *)
Fixpoint sample_maps (labels line : list string) (i : nat)
    (maps : list string) (data : list (gmap string (gmap string string)))
  : outcome (list (gmap string (gmap string string))) :=
  match maps with
  | [] => Returned data
  | map_name :: maps' =>
      d ← fill_labels labels line i (seq 0 (length labels)) ∅;
      sample_maps labels line (S i) maps' (data ++ [{[map_name := d]}])
  end.

(** [for item in ret.splitlines(): line = item.split(sep)[3:]; ...] *)
Fixpoint sample_lines (sep : ascii) (labels map_list : list string)
    (lines : list string) (data : list (gmap string (gmap string string)))
  : outcome (list (gmap string (gmap string string))) :=
  match lines with
  | [] => Returned data
  | item :: lines' =>
      let line := drop 3 (split_on sep item) in
      data' ← sample_maps labels line 0 map_list data;
      sample_lines sep labels map_list lines' data'
  end.

(** ['%f,%f' % (e, n)] *)
Definition format_coord (e n : float) : string :=
  format_f py e +:+ "," +:+ format_f py n.

(** [map_list] *)
Definition map_list_of (map : map_arg) : list string :=
  match map with
  | MapName name => [name]
  | MapList names => names
  end.

(** [coord_list] *)
Definition coord_list_of (coord : coord_arg) : list string :=
  match coord with
  | CoordTuple e n => [format_coord e n]
  | CoordList pairs => (fun en => format_coord en.1 en.2) <$> pairs
  end.

(** The keyword arguments of the one [r.what] run. *)
Definition what_args (map : map_arg) (coord : coord_arg) (env : pyval)
  : kwargs :=
  [("flags", VStr "rf");
   ("map", VStr (String.concat "," (map_list_of map)));
   ("coordinates", VStr (String.concat "," (coord_list_of coord)));
   ("null", VStr (gettext py "No data"));
   ("quiet", VBool true);
   ("env", env)].

(** [labels] *)
Definition labels_of (localized : bool) : list string :=
  if localized
  then [gettext py "value"; gettext py "label"; gettext py "color"]
  else ["value"; "label"; "color"].

Definition raster_what (map : map_arg) (coord : coord_arg) (env : pyval)
    (localized : bool) : M (list (gmap string (gmap string string))) :=
  let map_list := map_list_of map in
  let sep := "|"%char in
  ret ← read_command "r.what" (what_args map coord env);
  let data := [] in
  if decide (ret = "") then mret data
  else
    let labels := labels_of localized in
    lift (sample_lines sep labels map_list (splitlines ret) data).
End Raster.

(** ** Observations the statements are written with *)

(** [part] occurs in [text]. *)
Definition mentions (text part : string) : bool :=
  match String.index 0 part text with
  | Some _ => true
  | None => false
  end.

(** The dictionary built for one raster at one point. *)
Definition triple (labels : list string) (value label color : string)
  : gmap string string :=
  match labels with
  | [lv; ll; lc] => <[lc := color]> (<[ll := label]> (<[lv := value]> ∅))
  | _ => ∅
  end.

(** The three loops of [raster_info], one after the other. *)
Definition coerce_all (py : pylib) (kv : gmap string info_value)
  : outcome (gmap string info_value) :=
  kv ← coerce_fields (float_or_null py) ["min"; "max"] kv;
  kv ← coerce_fields (float_ py) ["north"; "south"; "east"; "west"] kv;
  coerce_fields (float_or_dms_ py) ["nsres"; "ewres"] kv.

(** The coercion [raster_info] applies to a key, if any. *)
Definition field_coercion (py : pylib) (k : string)
  : option (info_value → outcome info_value) :=
  if decide (k ∈ ["min"; "max"]) then Some (float_or_null py)
  else if decide (k ∈ ["north"; "south"; "east"; "west"]) then Some (float_ py)
  else if decide (k ∈ ["nsres"; "ewres"]) then Some (float_or_dms_ py)
  else None.

(** The reporter's text for [k] is there and [f] accepts it. *)
Definition parses (f : info_value → outcome info_value)
    (kv0 : gmap string string) (k : string) : Prop :=
  ∃ s v, kv0 !! k = Some s ∧ f (IText s) = Returned v.

(** The eight fields [raster_info] coerces are all there and all parse. *)
Definition complete_info (py : pylib) (kv0 : gmap string string) : Prop :=
  (∀ k, k ∈ ["min"; "max"] → parses (float_or_null py) kv0 k) ∧
  (∀ k, k ∈ ["north"; "south"; "east"; "west"] → parses (float_ py) kv0 k) ∧
  (∀ k, k ∈ ["nsres"; "ewres"] → parses (float_or_dms_ py) kv0 k).

(** The keyword arguments of the one [r.info] run. *)
Definition info_args (map : string) : kwargs :=
  [("flags", VStr "gre"); ("map", VStr map)].

(** A [KeyError] for a missing binding or a [ValueError] for an ill-formed
    delimiter: the two errors of [substitute]. *)
Definition is_template_error (e : exn) : bool :=
  match e with
  | KeyError _ | ValueError => true
  | _ => false
  end.

(** Seed resolution, in the words of the specification: on a request for
    automatic seeding the seed is derived from the process identity and the
    wall-clock time and bounded to the unsigned 32-bit range; any other seed
    is handed on as it is. *)
Definition seed_resolution (py : pylib) (w : session) (seed : pyval) : pyval :=
  if is_auto seed
  then VInt (py_hash py (getpid w) (time_time w) mod 2 ^ 32)%Z
  else seed.

(** The value of a keyword argument. *)
Definition kwarg (name : string) (args : kwargs) : option pyval :=
  (list_to_map args : gmap string pyval) !! name.

(** The keyword arguments of every run of the evaluator tool in a trace. *)
Definition evaluator_runs (t : list event) : list kwargs :=
  omap (fun ev =>
          match ev with
          | EvRunCommand prog args | EvReadCommand prog args
          | EvWriteCommand prog args _ | EvFeedCommand prog args _ =>
              if decide (prog = "r.mapcalc") then Some args else None
          | _ => None
          end) t.

(** The message of [mapcalc] on a failed run, before translation. *)
Definition mapcalc_failure : string :=
  "An error occurred while running r.mapcalc".

(** Field [k] of a line, for a [k] that is in range. *)
Definition field (line : list string) (k : nat) : string :=
  default "" (line !! k).

(** The entry of the raster at position [i] of the request: its name
    mapped to the triple of its three fields. *)
Definition entry (labels line : list string) (i : nat) (map_name : string)
  : gmap string (gmap string string) :=
  {[ map_name := triple labels (field line (3 * i)) (field line (3 * i + 1))
                   (field line (3 * i + 2)) ]}.

(** The entries one line of output gives: one for each raster, in the order
    of the request. *)
Definition line_entries (labels maps line : list string)
  : list (gmap string (gmap string string)) :=
  imap (entry labels line) maps.

(** The three keys of an inner dictionary, renamed to the localized
    labels. *)
Definition relabel (py : pylib) (d : gmap string string)
  : gmap string string :=
  triple (labels_of py true) (default "" (d !! "value"))
    (default "" (d !! "label")) (default "" (d !! "color")).

(** A result of [raster_what] with every inner dictionary relabelled. *)
Definition relabel_entries (py : pylib)
    (data : list (gmap string (gmap string string)))
  : list (gmap string (gmap string string)) :=
  (λ e : gmap string (gmap string string), relabel py <$> e) <$> data.

(** A template the bindings can expand: every delimiter starts a well-formed
    match and every placeholder has a binding. *)
Definition expandable (template : string) (mapping : gmap string string)
  : Prop :=
  (TInvalid ∉ tokens template) ∧
  ∀ id, placeholder template id → is_Some (mapping !! id).

(** The eight fields [raster_info] coerces, in the order of its three
    loops, each with the coercion its loop applies. *)
Definition info_fields (py : pylib)
  : list (string * (info_value → outcome info_value)) :=
  [("min", float_or_null py); ("max", float_or_null py);
   ("north", float_ py); ("south", float_ py);
   ("east", float_ py); ("west", float_ py);
   ("nsres", float_or_dms_ py); ("ewres", float_or_dms_ py)].

(** One loop over keys that each come with their own coercion. *)
Fixpoint coerce_pairs (fs : list (string * (info_value → outcome info_value)))
    (kv : gmap string info_value) : outcome (gmap string info_value) :=
  match fs with
  | [] => Returned kv
  | (k, f) :: fs' =>
      v ← getitem kv k;
      v' ← f v;
      coerce_pairs fs' (<[k := v']> kv)
  end.

(** The characters of a string. *)
Fixpoint chars (s : string) : list ascii :=
  match s with
  | EmptyString => []
  | String c s' => c :: chars s'
  end.

(** Text that is one line: it has no line feed and no carriage return. *)
Definition one_line (s : string) : Prop :=
  (LF ∉ chars s) ∧ (CR ∉ chars s).

(** The lines of a text output, each ended by a line feed. *)
Fixpoint unlines (ls : list string) : string :=
  match ls with
  | [] => EmptyString
  | l :: ls' => l +:+ String LF (unlines ls')
  end.

(** ** A concrete session, to run the functions on *)

Module Demo.
(** [float] on the two literals the examples need. *)
Definition demo_float (s : string) : option float :=
  if decide (s = "10.5") then Some 10.5%float
  else if decide (s = "1") then Some 1%float
  else if decide (s = "0") then Some 0%float
  else None.

(** [float_or_dms] on the literal the examples need: thirty seconds of arc. *)
Definition demo_dms (s : string) : option float :=
  if decide (s = "0:00:30") then Some (30 / 3600)%float
  else demo_float s.

(** One [key=value] pair per line. *)
Definition demo_pair (line : string) : option (string * string) :=
  match split_on "=" line with
  | [k; v] => Some (k, v)
  | _ => None
  end.

Definition demo_parse (s : string) : gmap string string :=
  list_to_map (omap demo_pair (splitlines s)).

Definition demo_py : pylib :=
  {| py_float := demo_float;
     format_f := fun _ => "0.000000";
     py_hash := fun pid _ => (pid * 1000003 - 7)%Z;
     gettext := fun msg => msg;
     float_or_dms := demo_dms;
     parse_key_val := demo_parse |}.

Definition nl : string := String LF EmptyString.

Definition demo_info : string :=
  "north=1" +:+ nl +:+ "south=0" +:+ nl +:+ "east=1" +:+ nl +:+ "west=0"
    +:+ nl +:+ "nsres=0:00:30" +:+ nl +:+ "ewres=0:00:30" +:+ nl
    +:+ "min=NULL" +:+ nl +:+ "max=10.5" +:+ nl +:+ "datatype=CELL" +:+ nl.

Definition demo_what : string :=
  "0|0||1.5|low|255:0:0|7|high|0:0:255" +:+ nl.

Definition demo_session : session :=
  {| gisenv_MAPSET := "user1";
     find_file_mapset := fun name =>
       if decide (name = "elevation") then Some "user1"
       else if decide (name = "geology") then Some "PERMANENT"
       else None;
     environ := {[ "CMDLINE" := "r.example in=elevation" ]};
     getpid := 4242;
     time_time := 1.5%float;
     tool_stdout := fun prog _ =>
       if decide (prog = "r.info") then demo_info
       else if decide (prog = "r.what") then demo_what
       else "";
     tool_exit := fun _ _ stdin => if decide (stdin = "fail") then 1%Z else 0%Z;
     popen := fun _ _ => {| child_pid := 4243 |} |}.

(** A catalogue that translates the three labels and nothing else. *)
Definition german (msg : string) : string :=
  if decide (msg = "value") then "Wert"
  else if decide (msg = "label") then "Beschriftung"
  else if decide (msg = "color") then "Farbe"
  else msg.

Definition german_py : pylib :=
  {| py_float := demo_float;
     format_f := format_f demo_py;
     py_hash := py_hash demo_py;
     gettext := german;
     float_or_dms := demo_dms;
     parse_key_val := demo_parse |}.

(** The same session with tools that print nothing. *)
Definition silent_session : session :=
  {| gisenv_MAPSET := gisenv_MAPSET demo_session;
     find_file_mapset := find_file_mapset demo_session;
     environ := environ demo_session;
     getpid := getpid demo_session;
     time_time := time_time demo_session;
     tool_stdout := fun _ _ => "";
     tool_exit := tool_exit demo_session;
     popen := popen demo_session |}.

(** A reporter that prints two fields only. *)
Definition bare_session : session :=
  {| gisenv_MAPSET := gisenv_MAPSET demo_session;
     find_file_mapset := find_file_mapset demo_session;
     environ := environ demo_session;
     getpid := getpid demo_session;
     time_time := time_time demo_session;
     tool_stdout := fun _ _ => "min=NULL" +:+ nl +:+ "max=10.5" +:+ nl;
     tool_exit := tool_exit demo_session;
     popen := popen demo_session |}.

(** The same session without [CMDLINE] in the environment. *)
Definition plain_session : session :=
  {| gisenv_MAPSET := gisenv_MAPSET demo_session;
     find_file_mapset := find_file_mapset demo_session;
     environ := ∅;
     getpid := getpid demo_session;
     time_time := time_time demo_session;
     tool_stdout := tool_stdout demo_session;
     tool_exit := tool_exit demo_session;
     popen := popen demo_session |}.
End Demo.

Import Demo.

(** * Properties *)

(** ** Text *)

Lemma splitlines_nonempty (s : string) : s ≠ "" → splitlines s ≠ [].
Proof.
  destruct s as [|a s']; [done|]. intros _. simpl.
  destruct (Ascii.eqb a LF); [done|].
  destruct (Ascii.eqb a CR).
  - destruct s' as [|b s'']; [done|]. by destruct (Ascii.eqb b LF).
  - by destruct (splitlines s').
Qed.

Lemma split_on_nonempty (c : ascii) (s : string) : split_on c s ≠ [].
Proof.
  destruct s as [|a s']; simpl; [done|].
  destruct (Ascii.eqb a c); [done|]. by destruct (split_on c s').
Qed.

(** ** [raster_history] *)

(** C3, as the specification has it, fails twice.  For a raster that lives
    in another mapset the one warning names the raster twice and says nothing
    of the mapset it was found in.  And for a raster of the current mapset,
    [True] is not returned when the environment has no [CMDLINE]: the lookup
    raises [KeyError] before any tool is run. *)
Lemma raster_history_warning_omits_location :
  (find_file_mapset demo_session "geology" = Some "PERMANENT" ∧
   ∃ msg,
     run (raster_history demo_py demo_session "geology")
       = (Returned false, [EvWarning msg]) ∧
     mentions msg "geology" = true ∧
     mentions msg "PERMANENT" = false) ∧
  (find_file_mapset plain_session "elevation"
     = Some (gisenv_MAPSET plain_session) ∧
   run (raster_history demo_py plain_session "elevation")
     = (Raised (KeyError "CMDLINE"), [])).
Proof.
  split.
  - split; [reflexivity|]. eexists. split; [reflexivity|]. by vm_compute.
  - split; reflexivity.
Qed.

(** C3, amended: when the raster's resolved mapset is the current mapset and
    the environment records the command line, [raster_history] returns [True]
    and runs [r.support] exactly once, with the raster name and that
    command-line text; when the resolved mapset differs (or the raster
    is not found), nothing is raised, [r.support] is not run, exactly one
    warning is emitted, whose text names the raster twice, and [False] is
    returned. *)
Theorem raster_history_spec (py : pylib) (w : session) (map : string) :
  (∀ cmdline,
     find_file_mapset w map = Some (gisenv_MAPSET w) →
     environ w !! "CMDLINE" = Some cmdline →
     run (raster_history py w map)
       = (Returned true,
          [EvRunCommand "r.support"
             [("map", VStr map); ("history", VStr cmdline)]])) ∧
  (find_file_mapset w map ≠ Some (gisenv_MAPSET w) →
     run (raster_history py w map)
       = (Returned false, [EvWarning (gettext py (history_message map))]) ∧
     history_message map
       = "Unable to write history for <" +:+ map +:+ ">. Raster map <"
           +:+ map +:+ "> not found in current mapset.").
Proof.
  unfold raster_history. split.
  - intros cmdline Hfound Hcmd.
    rewrite decide_True by done.
    unfold run, mbind, M_bind, lift, getitem. by rewrite Hcmd.
  - intros Hother. by rewrite decide_False.
Qed.

Lemma raster_history_spec_witness :
  run (raster_history demo_py demo_session "elevation")
    = (Returned true,
       [EvRunCommand "r.support"
          [("map", VStr "elevation");
           ("history", VStr "r.example in=elevation")]]) ∧
  run (raster_history demo_py demo_session "geology")
    = (Returned false,
       [EvWarning (gettext demo_py (history_message "geology"))]).
Proof.
  split.
  - apply (proj1 (raster_history_spec demo_py demo_session "elevation"));
      reflexivity.
  - apply (proj2 (raster_history_spec demo_py demo_session "geology")).
    vm_compute. discriminate.
Defined.

(** ** [raster_what] *)

(** C9: when [r.what] prints nothing, [raster_what] returns the empty list
    and raises nothing; the one tool run is the only thing that happened. *)
Theorem raster_what_empty_output (py : pylib) (w : session)
    (map : map_arg) (coord : coord_arg) (env : pyval) (localized : bool) :
  tool_stdout w "r.what" (what_args py map coord env) = "" →
  run (raster_what py w map coord env localized)
    = (Returned [], [EvReadCommand "r.what" (what_args py map coord env)]).
Proof.
  intros Hout. unfold raster_what, read_command, run, mbind, M_bind, emit.
  simpl. rewrite Hout. by rewrite decide_True.
Qed.

Lemma raster_what_empty_output_witness :
  run (raster_what demo_py silent_session (MapName "elevation")
         (CoordList [(0%float, 0%float); (1%float, 1%float)]) VNone true)
    = (Returned [],
       [EvReadCommand "r.what"
          (what_args demo_py (MapName "elevation")
             (CoordList [(0%float, 0%float); (1%float, 1%float)]) VNone)]).
Proof.
  apply (raster_what_empty_output demo_py silent_session). reflexivity.
Defined.

(** C1, as the specification has it, fails: two rasters at one point give
    two entries, one per raster, not one entry with two keys. *)
Lemma raster_what_two_rasters_two_entries :
  let r := (run (raster_what demo_py demo_session
                   (MapList ["elevation"; "geology"])
                   (CoordTuple 0%float 0%float) VNone false)).1 in
  splitlines (tool_stdout demo_session "r.what"
                (what_args demo_py (MapList ["elevation"; "geology"])
                   (CoordTuple 0%float 0%float) VNone))
    = ["0|0||1.5|low|255:0:0|7|high|0:0:255"] ∧
  r = Returned
        [ {[ "elevation" := triple ["value"; "label"; "color"]
                                   "1.5" "low" "255:0:0" ]};
          {[ "geology" := triple ["value"; "label"; "color"]
                                 "7" "high" "0:0:255" ]} ] ∧
  ¬ ∃ d : gmap string (gmap string string), r = Returned [d].
Proof.
  split; [reflexivity|]. split; [reflexivity|].
  intros [d Hd]. vm_compute in Hd. discriminate Hd.
Qed.

(** C1, amended: for two rasters and any query whose captured output is one
    line with six value fields after the three-field prefix, the result has
    two entries, in the order the rasters were asked for; each entry maps one
    raster name to the value/label/color triple taken from that raster's
    three fields. *)
Theorem raster_what_two_rasters (py : pylib) (w : session)
    (m1 m2 : string) (coord : coord_arg) (env : pyval) (localized : bool)
    (item p0 p1 p2 v1 l1 c1 v2 l2 c2 : string) :
  splitlines (tool_stdout w "r.what"
                (what_args py (MapList [m1; m2]) coord env)) = [item] →
  split_on "|" item = [p0; p1; p2; v1; l1; c1; v2; l2; c2] →
  (run (raster_what py w (MapList [m1; m2]) coord env localized)).1
    = Returned
        [ {[ m1 := triple (labels_of py localized) v1 l1 c1 ]};
          {[ m2 := triple (labels_of py localized) v2 l2 c2 ]} ].
Proof.
  intros Hlines Hfields.
  unfold raster_what, read_command, run, mbind, M_bind, emit. simpl.
  destruct (decide (tool_stdout w "r.what"
                      (what_args py (MapList [m1; m2]) coord env) = ""))
    as [Hempty|_].
  { rewrite Hempty in Hlines. discriminate Hlines. }
  rewrite Hlines. unfold lift. simpl. rewrite Hfields.
  by destruct localized.
Qed.

Lemma raster_what_two_rasters_witness :
  (run (raster_what demo_py demo_session (MapList ["elevation"; "geology"])
          (CoordList [(0%float, 0%float)]) VNone true)).1
    = Returned
        [ {[ "elevation" := triple (labels_of demo_py true)
                                   "1.5" "low" "255:0:0" ]};
          {[ "geology" := triple (labels_of demo_py true)
                                 "7" "high" "0:0:255" ]} ].
Proof.
  apply (raster_what_two_rasters demo_py demo_session "elevation" "geology"
           (CoordList [(0%float, 0%float)]) VNone true
           "0|0||1.5|low|255:0:0|7|high|0:0:255" "0" "0" "");
    reflexivity.
Defined.

Section SamplerLoops.
Context (labels line : list string).

(** The inner loop returns exactly when every index it reads is in range,
    and otherwise raises [IndexError]. *)
Lemma fill_labels_outcome (i : nat) (js : list nat) (d : gmap string string) :
  (∀ j : nat, j ∈ js → (j < length labels)%nat) →
  ((∃ d', fill_labels labels line i js d = Returned d') ∧
   ∀ j : nat, j ∈ js → (i * length labels + j < length line)%nat) ∨
  (fill_labels labels line i js d = Raised IndexError ∧
   ∃ j : nat, j ∈ js ∧ (length line ≤ i * length labels + j)%nat).
Proof.
  revert d. induction js as [|j js IH]; intros d Hjs; simpl.
  - left. split; [by eexists|]. intros j Hj. by apply elem_of_nil in Hj.
  - unfold index.
    destruct (line !! (i * length labels + j)%nat) as [v|] eqn:Hv; simpl.
    + apply lookup_lt_Some in Hv.
      destruct (labels !! j) as [l|] eqn:Hl; simpl.
      * destruct (IH (<[l:=v]> d)) as [[Hret Hin]|[Hraise [j' [Hj' Hout]]]].
        { intros j' Hj'. apply Hjs. by right. }
        { left. split; [done|]. intros j' Hj'.
          apply elem_of_cons in Hj' as [->|Hj']; [done|by apply Hin]. }
        { right. split; [done|]. exists j'. split; [by right|done]. }
      * apply lookup_ge_None in Hl.
        specialize (Hjs j (list_elem_of_here j js)). lia.
    + apply lookup_ge_None in Hv. right. split; [done|].
      exists j. split; [by left|done].
Qed.

Lemma seq_below (n j : nat) : j ∈ seq 0 n → (j < n)%nat.
Proof. rewrite list_elem_of_In, in_seq. lia. Qed.

Lemma sample_maps_outcome (i : nat) (maps : list string)
    (data : list (gmap string (gmap string string))) :
  (∃ data', sample_maps labels line i maps data = Returned data') ∨
  sample_maps labels line i maps data = Raised IndexError.
Proof.
  revert i data. induction maps as [|m maps IH]; intros i data; simpl.
  - left. by eexists.
  - destruct (fill_labels_outcome i (seq 0 (length labels)) ∅)
      as [[[d' Hret] _]|[Hraise _]].
    { intros j. apply seq_below. }
    + rewrite Hret. simpl. apply IH.
    + rewrite Hraise. by right.
Qed.

(** Too few fields for the rasters still to be read: [IndexError]. *)
Lemma sample_maps_short (i : nat) (maps : list string)
    (data : list (gmap string (gmap string string))) :
  maps ≠ [] →
  (length line < (i + length maps) * length labels)%nat →
  sample_maps labels line i maps data = Raised IndexError.
Proof.
  revert i data. induction maps as [|m maps IH]; intros i data Hne Hshort;
    [done|]. simpl.
  destruct (fill_labels_outcome i (seq 0 (length labels)) ∅)
    as [[[d' Hret] Hin]|[Hraise _]].
  { intros j. apply seq_below. }
  - rewrite Hret. simpl.
    destruct maps as [|m' maps'].
    + exfalso. simpl in Hshort.
      destruct (length labels) as [|n] eqn:Hlen; [lia|].
      assert (Hn : n ∈ seq 0 (S n))
        by (rewrite list_elem_of_In, in_seq; lia).
      specialize (Hin n Hn). lia.
    + apply IH; [done|]. simpl in *. lia.
  - by rewrite Hraise.
Qed.
End SamplerLoops.

Lemma sample_lines_short (sep : ascii) (labels maps lines : list string)
    (item : string) (data : list (gmap string (gmap string string))) :
  maps ≠ [] →
  item ∈ lines →
  (length (drop 3 (split_on sep item)) < length maps * length labels)%nat →
  sample_lines sep labels maps lines data = Raised IndexError.
Proof.
  intros Hne Hitem Hshort. revert data.
  induction lines as [|item' lines IH]; intros data.
  - by apply elem_of_nil in Hitem.
  - simpl. apply elem_of_cons in Hitem as [<-|Hitem].
    + by rewrite sample_maps_short.
    + destruct (sample_maps_outcome labels (drop 3 (split_on sep item')) 0
                  maps data) as [[data' Hret]|Hraise].
      * rewrite Hret. simpl. by apply IH.
      * by rewrite Hraise.
Qed.

(** Every raster of every line adds one entry. *)
Lemma sample_maps_length (labels line : list string) (i : nat)
    (maps : list string) (data data' : list (gmap string (gmap string string))) :
  sample_maps labels line i maps data = Returned data' →
  length data' = (length data + length maps)%nat.
Proof.
  revert i data. induction maps as [|m maps IH]; intros i data Hret;
    simpl in Hret.
  - injection Hret as <-. simpl. lia.
  - destruct (fill_labels labels line i (seq 0 (length labels)) ∅)
      as [d| |]; simpl in Hret; [|done..].
    rewrite (IH _ _ Hret), length_app. simpl. lia.
Qed.

Lemma sample_lines_length (sep : ascii) (labels maps lines : list string)
    (data data' : list (gmap string (gmap string string))) :
  sample_lines sep labels maps lines data = Returned data' →
  length data' = (length data + length lines * length maps)%nat.
Proof.
  revert data. induction lines as [|item lines IH]; intros data Hret;
    simpl in Hret.
  - injection Hret as <-. simpl. lia.
  - destruct (sample_maps labels (drop 3 (split_on sep item)) 0 maps data)
      as [data1| |] eqn:Hmaps; simpl in Hret; [|done..].
    apply sample_maps_length in Hmaps. rewrite (IH _ Hret), Hmaps. simpl. lia.
Qed.

(** X4: whenever [raster_what] returns, the result has one entry for each
    raster at each line of the captured output. *)
Lemma raster_what_entry_count (py : pylib) (w : session)
    (map : map_arg) (coord : coord_arg) (env : pyval) (localized : bool)
    (data : list (gmap string (gmap string string))) :
  (run (raster_what py w map coord env localized)).1 = Returned data →
  length data
    = (length (splitlines (tool_stdout w "r.what" (what_args py map coord env)))
       * length (map_list_of map))%nat.
Proof.
  unfold raster_what, read_command, run, mbind, M_bind, emit. simpl.
  destruct (decide (tool_stdout w "r.what" (what_args py map coord env) = ""))
    as [->|_].
  - intros [= <-]. done.
  - unfold lift. simpl. intros Hret.
    by rewrite (sample_lines_length _ _ _ _ _ _ Hret).
Qed.

Lemma labels_of_length (py : pylib) (localized : bool) :
  length (labels_of py localized) = 3%nat.
Proof. by destruct localized. Qed.

(** C10: when a line of the captured output, split at the pipes and with
    its three-field prefix dropped, has fewer than three fields per requested
    raster, [raster_what] ends in an uncaught [IndexError]: nothing checks the
    number of columns and no other result is produced. *)
Theorem raster_what_short_line (py : pylib) (w : session)
    (map : map_arg) (coord : coord_arg) (env : pyval) (localized : bool)
    (item : string) :
  item ∈ splitlines (tool_stdout w "r.what" (what_args py map coord env)) →
  (length (drop 3 (split_on "|" item)) < 3 * length (map_list_of map))%nat →
  run (raster_what py w map coord env localized)
    = (Raised IndexError,
       [EvReadCommand "r.what" (what_args py map coord env)]).
Proof.
  intros Hitem Hshort.
  unfold raster_what, read_command, run, mbind, M_bind, emit. simpl.
  destruct (decide (tool_stdout w "r.what" (what_args py map coord env) = ""))
    as [Hempty|_].
  { rewrite Hempty in Hitem. by apply elem_of_nil in Hitem. }
  unfold lift.
  rewrite (sample_lines_short _ _ _ _ item); [done| |done|].
  - intros Hnil. rewrite Hnil in Hshort. simpl in Hshort. lia.
  - rewrite labels_of_length. lia.
Qed.

Lemma raster_what_short_line_witness :
  run (raster_what demo_py demo_session
         (MapList ["elevation"; "geology"; "soils"])
         (CoordTuple 0%float 0%float) VNone false)
    = (Raised IndexError,
       [EvReadCommand "r.what"
          (what_args demo_py (MapList ["elevation"; "geology"; "soils"])
             (CoordTuple 0%float 0%float) VNone)]).
Proof.
  apply (raster_what_short_line demo_py demo_session
           (MapList ["elevation"; "geology"; "soils"])
           (CoordTuple 0%float 0%float) VNone false
           "0|0||1.5|low|255:0:0|7|high|0:0:255").
  - vm_compute. apply list_elem_of_here.
  - vm_compute. lia.
Defined.

(** ** [raster_info] *)

Section CoerceFields.
Context (f : info_value → outcome info_value).

(** What one coercion loop leaves behind, key by key. *)
Lemma coerce_fields_lookup (ks : list string)
    (kv kv' : gmap string info_value) (k : string) :
  NoDup ks →
  coerce_fields f ks kv = Returned kv' →
  (k ∈ ks ∧ ∃ v v', kv !! k = Some v ∧ f v = Returned v' ∧
                     kv' !! k = Some v') ∨
  ((k ∉ ks) ∧ kv' !! k = kv !! k).
Proof.
  intros Hnd. revert kv.
  induction Hnd as [|k0 ks Hk0 Hnd IH]; intros kv Hret; simpl in Hret.
  - right. split; [apply not_elem_of_nil|]. injection Hret as <-. done.
  - unfold getitem in Hret.
    destruct (kv !! k0) as [v|] eqn:Hv; simpl in Hret; [|done].
    destruct (f v) as [v'| |] eqn:Hf; simpl in Hret; [|done..].
    destruct (IH _ Hret) as [[Hin (u & u' & Hu & Hfu & Hu')]|[Hnin Heq]].
    + left. split; [by right|].
      assert (k0 ≠ k) by (intros ->; done).
      rewrite lookup_insert_ne in Hu by done. by exists u, u'.
    + destruct (decide (k = k0)) as [->|Hne].
      * left. split; [by left|]. exists v, v'.
        by rewrite Heq, lookup_insert_eq.
      * right. split.
        { rewrite not_elem_of_cons. done. }
        by rewrite Heq, lookup_insert_ne.
Qed.

Lemma coerce_fields_dom (ks : list string) (kv kv' : gmap string info_value) :
  coerce_fields f ks kv = Returned kv' → dom kv' = dom kv.
Proof.
  revert kv. induction ks as [|k0 ks IH]; intros kv Hret; simpl in Hret.
  - injection Hret as <-. done.
  - unfold getitem in Hret.
    destruct (kv !! k0) as [v|] eqn:Hv; simpl in Hret; [|done].
    destruct (f v) as [v'| |] eqn:Hf; simpl in Hret; [|done..].
    rewrite (IH _ Hret), dom_insert_L.
    apply elem_of_dom_2 in Hv. apply subseteq_union_1_L.
    by apply singleton_subseteq_l.
Qed.

(** The loop returns when every key is present and its value coerces. *)
Lemma coerce_fields_total (ks : list string) (kv : gmap string info_value) :
  NoDup ks →
  (∀ k, k ∈ ks → ∃ v v', kv !! k = Some v ∧ f v = Returned v') →
  ∃ kv', coerce_fields f ks kv = Returned kv'.
Proof.
  intros Hnd. revert kv.
  induction Hnd as [|k0 ks Hk0 Hnd IH]; intros kv Hall; simpl.
  - by eexists.
  - destruct (Hall k0) as (v & v' & Hv & Hf); [by left|].
    unfold getitem. rewrite Hv. simpl. rewrite Hf. simpl.
    apply IH. intros k Hk.
    destruct (Hall k) as (u & u' & Hu & Hfu); [by right|].
    exists u, u'. split; [|done].
    rewrite lookup_insert_ne; [done|]. intros ->. done.
Qed.
End CoerceFields.

Lemma raster_info_run (py : pylib) (w : session) (map : string) :
  run (raster_info py w map)
    = (coerce_all py
         (IText <$> parse_key_val py (tool_stdout w "r.info" (info_args map))),
       [EvReadCommand "r.info" (info_args map)]).
Proof.
  unfold raster_info, read_command, run, mbind, M_bind, emit, lift, coerce_all.
  cbn -[coerce_fields]. fold (info_args map).
  repeat match goal with
         | |- context [coerce_fields ?f ?ks ?kv] =>
             destruct (coerce_fields f ks kv); cbn -[coerce_fields]; [|done..]
         end.
  done.
Qed.

Lemma NoDup_minmax : NoDup ["min"; "max"].
Proof. by apply (bool_decide_unpack _). Qed.

Lemma NoDup_bounds : NoDup ["north"; "south"; "east"; "west"].
Proof. by apply (bool_decide_unpack _). Qed.

Lemma NoDup_res : NoDup ["nsres"; "ewres"].
Proof. by apply (bool_decide_unpack _). Qed.

Lemma not_in_both (l1 l2 : list string) (k : string) :
  bool_decide (Forall (λ x, x ∉ l2) l1) = true → k ∈ l1 → k ∈ l2 → False.
Proof.
  intros Hdis%bool_decide_eq_true_1 H1 H2.
  rewrite Forall_forall in Hdis. by apply (Hdis k).
Qed.

(** Key by key, what [coerce_all] returns. *)
Lemma coerce_all_lookup (py : pylib) (kv0 : gmap string string)
    (m : gmap string info_value) (k : string) :
  coerce_all py (IText <$> kv0) = Returned m →
  match field_coercion py k with
  | Some f => ∃ s v, kv0 !! k = Some s ∧ f (IText s) = Returned v ∧
                     m !! k = Some v
  | None => m !! k = IText <$> kv0 !! k
  end.
Proof.
  unfold coerce_all. intros Hret.
  destruct (coerce_fields (float_or_null py) ["min"; "max"] (IText <$> kv0))
    as [kv1| |] eqn:H1; cbn -[coerce_fields] in Hret; [|done..].
  destruct (coerce_fields (float_ py) ["north"; "south"; "east"; "west"] kv1)
    as [kv2| |] eqn:H2; cbn -[coerce_fields] in Hret; [|done..].
  pose proof (coerce_fields_lookup _ _ _ _ k NoDup_minmax H1) as L1.
  pose proof (coerce_fields_lookup _ _ _ _ k NoDup_bounds H2) as L2.
  pose proof (coerce_fields_lookup _ _ _ _ k NoDup_res Hret) as L3.
  rewrite lookup_fmap in L1.
  unfold field_coercion.
  destruct L1 as [[Hin1 (v & v' & Hv & Hf & Hv')]|[Hnin1 E1]].
  - rewrite decide_True by done.
    destruct (kv0 !! k) as [s|] eqn:Hs; simpl in Hv; [|done].
    injection Hv as <-. exists s, v'. split; [done|]. split; [done|].
    destruct L2 as [[Hin2 _]|[_ E2]].
    { exfalso. eapply not_in_both; [|exact Hin1|exact Hin2]. by vm_compute. }
    destruct L3 as [[Hin3 _]|[_ E3]].
    { exfalso. eapply not_in_both; [|exact Hin1|exact Hin3]. by vm_compute. }
    by rewrite E3, E2.
  - rewrite decide_False by done.
    destruct L2 as [[Hin2 (v & v' & Hv & Hf & Hv')]|[Hnin2 E2]].
    + rewrite decide_True by done.
      rewrite E1 in Hv.
      destruct (kv0 !! k) as [s|] eqn:Hs; simpl in Hv; [|done].
      injection Hv as <-. exists s, v'. split; [done|]. split; [done|].
      destruct L3 as [[Hin3 _]|[_ E3]].
      { exfalso. eapply not_in_both; [|exact Hin2|exact Hin3]. by vm_compute. }
      by rewrite E3.
    + rewrite decide_False by done.
      destruct L3 as [[Hin3 (v & v' & Hv & Hf & Hv')]|[Hnin3 E3]].
      * rewrite decide_True by done.
        rewrite E2, E1 in Hv.
        destruct (kv0 !! k) as [s|] eqn:Hs; simpl in Hv; [|done].
        injection Hv as <-. by exists s, v'.
      * rewrite decide_False by done. by rewrite E3, E2, E1.
Qed.

Lemma coerce_all_dom (py : pylib) (kv0 : gmap string string)
    (m : gmap string info_value) :
  coerce_all py (IText <$> kv0) = Returned m → dom m = dom kv0.
Proof.
  unfold coerce_all. intros Hret.
  destruct (coerce_fields (float_or_null py) ["min"; "max"] (IText <$> kv0))
    as [kv1| |] eqn:H1; cbn -[coerce_fields] in Hret; [|done..].
  destruct (coerce_fields (float_ py) ["north"; "south"; "east"; "west"] kv1)
    as [kv2| |] eqn:H2; cbn -[coerce_fields] in Hret; [|done..].
  apply coerce_fields_dom in H1, H2, Hret.
  by rewrite Hret, H2, H1, dom_fmap_L.
Qed.

(** [raster_info] returns exactly on complete reporter output. *)
Lemma coerce_all_total (py : pylib) (kv0 : gmap string string) :
  complete_info py kv0 → ∃ m, coerce_all py (IText <$> kv0) = Returned m.
Proof.
  intros (Hmm & Hb & Hres). unfold coerce_all.
  destruct (coerce_fields_total (float_or_null py) ["min"; "max"]
              (IText <$> kv0) NoDup_minmax) as [kv1 H1].
  { intros k Hk. destruct (Hmm k Hk) as (s & v & Hs & Hf).
    exists (IText s), v. by rewrite lookup_fmap, Hs. }
  rewrite H1. cbn -[coerce_fields].
  destruct (coerce_fields_total (float_ py)
              ["north"; "south"; "east"; "west"] kv1 NoDup_bounds)
    as [kv2 H2].
  { intros k Hk. destruct (Hb k Hk) as (s & v & Hs & Hf).
    exists (IText s), v. split; [|done].
    destruct (coerce_fields_lookup _ _ _ _ k NoDup_minmax H1)
      as [[Hin _]|[_ ->]].
    - exfalso. eapply not_in_both; [|exact Hin|exact Hk]. by vm_compute.
    - by rewrite lookup_fmap, Hs. }
  rewrite H2. cbn -[coerce_fields].
  apply (coerce_fields_total _ _ _ NoDup_res).
  intros k Hk. destruct (Hres k Hk) as (s & v & Hs & Hf).
  exists (IText s), v. split; [|done].
  destruct (coerce_fields_lookup _ _ _ _ k NoDup_bounds H2)
    as [[Hin _]|[_ ->]].
  { exfalso. eapply not_in_both; [|exact Hin|exact Hk]. by vm_compute. }
  destruct (coerce_fields_lookup _ _ _ _ k NoDup_minmax H1)
    as [[Hin _]|[_ ->]].
  { exfalso. eapply not_in_both; [|exact Hin|exact Hk]. by vm_compute. }
  by rewrite lookup_fmap, Hs.
Qed.

Lemma coerce_all_complete (py : pylib) (kv0 : gmap string string)
    (m : gmap string info_value) :
  coerce_all py (IText <$> kv0) = Returned m → complete_info py kv0.
Proof.
  intros Hret. repeat split; intros k Hk;
    pose proof (coerce_all_lookup py kv0 m k Hret) as Hlook;
    unfold field_coercion in Hlook.
  - rewrite decide_True in Hlook by done.
    destruct Hlook as (s & v & ? & ? & _). by exists s, v.
  - rewrite decide_False, decide_True in Hlook; [|done|].
    + destruct Hlook as (s & v & ? & ? & _). by exists s, v.
    + intros Hin. eapply not_in_both; [|exact Hin|exact Hk]. by vm_compute.
  - rewrite decide_False, decide_False, decide_True in Hlook; [|done| |].
    + destruct Hlook as (s & v & ? & ? & _). by exists s, v.
    + intros Hin. eapply not_in_both; [|exact Hin|exact Hk]. by vm_compute.
    + intros Hin. eapply not_in_both; [|exact Hin|exact Hk]. by vm_compute.
Qed.

(** C8: whenever [raster_info] returns a dictionary, its keys are the keys
    of the parsed reporter output; each of the eight coerced fields holds the
    coercion of the reporter's text for it, and every other field holds the
    reporter's text, unchanged.  ([coerce_all_total] and
    [coerce_all_complete]: it returns exactly when the eight fields are
    present and parse.) *)
Theorem raster_info_keys (py : pylib) (w : session) (map : string)
    (m : gmap string info_value) :
  (run (raster_info py w map)).1 = Returned m →
  let kv0 := parse_key_val py (tool_stdout w "r.info" (info_args map)) in
  dom m = dom kv0 ∧
  ∀ k, match field_coercion py k with
       | Some f => ∃ s v, kv0 !! k = Some s ∧ f (IText s) = Returned v ∧
                          m !! k = Some v
       | None => m !! k = IText <$> kv0 !! k
       end.
Proof.
  rewrite raster_info_run. cbn [fst]. intros Hret. split.
  - exact (coerce_all_dom py _ m Hret).
  - intros k. exact (coerce_all_lookup py _ m k Hret).
Qed.

Lemma raster_info_keys_witness :
  ∃ m, (run (raster_info demo_py demo_session "elevation")).1 = Returned m ∧
       dom m = dom (parse_key_val demo_py demo_info) ∧
       m !! "datatype" = Some (IText "CELL") ∧
       m !! "min" = Some INone.
Proof.
  eexists. split; [reflexivity|].
  destruct (raster_info_keys demo_py demo_session "elevation" _ eq_refl)
    as [Hdom Hlook].
  split; [exact Hdom|].
  split; [exact (Hlook "datatype")|reflexivity].
Defined.

(** C2, as the specification has it, fails: reporter output with [min=NULL]
    and [max=10.5] and nothing else gives no dictionary; the lookup of
    [north] raises [KeyError]. *)
Lemma raster_info_needs_all_fields :
  let kv0 := parse_key_val demo_py
               (tool_stdout bare_session "r.info" (info_args "elevation")) in
  kv0 !! "min" = Some "NULL" ∧
  kv0 !! "max" = Some "10.5" ∧
  py_float demo_py "10.5" = Some 10.5%float ∧
  run (raster_info demo_py bare_session "elevation")
    = (Raised (KeyError "north"),
       [EvReadCommand "r.info" (info_args "elevation")]).
Proof. repeat split; reflexivity. Qed.

(** C2, amended: for reporter output whose eight coerced fields are all
    present and parse, [raster_info] returns a dictionary; in it [min] is
    [None] when the reporter printed [min=NULL], [max] is the float 10.5 when
    the reporter printed [max=10.5] (and [float('10.5')] is 10.5), and
    [nsres] is the float [float_or_dms] gives for ["0:00:30"] when the
    reporter printed [nsres=0:00:30]. *)
Theorem raster_info_null_and_float (py : pylib) (w : session) (map : string) :
  let kv0 := parse_key_val py (tool_stdout w "r.info" (info_args map)) in
  complete_info py kv0 →
  ∃ m,
    (run (raster_info py w map)).1 = Returned m ∧
    (kv0 !! "min" = Some "NULL" → m !! "min" = Some INone) ∧
    (kv0 !! "max" = Some "10.5" → py_float py "10.5" = Some 10.5%float →
     m !! "max" = Some (IFloat 10.5)) ∧
    (kv0 !! "nsres" = Some "0:00:30" →
     ∃ f, float_or_dms py "0:00:30" = Some f ∧ m !! "nsres" = Some (IFloat f)).
Proof.
  intros kv0 Hcomplete.
  destruct (coerce_all_total py kv0 Hcomplete) as [m Hret].
  exists m. rewrite raster_info_run. split; [exact Hret|].
  split; [|split].
  - intros Hmin.
    destruct (coerce_all_lookup py kv0 m "min" Hret) as (s & v & Hs & Hf & Hm).
    rewrite Hmin in Hs. injection Hs as <-. simpl in Hf.
    injection Hf as <-. exact Hm.
  - intros Hmax Hfloat.
    destruct (coerce_all_lookup py kv0 m "max" Hret) as (s & v & Hs & Hf & Hm).
    rewrite Hmax in Hs. injection Hs as <-. simpl in Hf.
    rewrite Hfloat in Hf. injection Hf as <-. exact Hm.
  - intros Hres.
    destruct (coerce_all_lookup py kv0 m "nsres" Hret)
      as (s & v & Hs & Hf & Hm).
    rewrite Hres in Hs. injection Hs as <-. simpl in Hf.
    destruct (float_or_dms py "0:00:30") as [f|]; [|done].
    injection Hf as <-. by exists f.
Qed.

Lemma demo_info_complete :
  complete_info demo_py
    (parse_key_val demo_py (tool_stdout demo_session "r.info"
                              (info_args "elevation"))).
Proof.
  repeat split; intros k Hk;
    repeat (apply elem_of_cons in Hk as [->|Hk]);
    try (by apply elem_of_nil in Hk);
    eexists _, _; split; reflexivity.
Defined.

Lemma raster_info_null_and_float_witness :
  ∃ m,
    (run (raster_info demo_py demo_session "elevation")).1 = Returned m ∧
    m !! "min" = Some INone ∧
    m !! "max" = Some (IFloat 10.5) ∧
    m !! "nsres" = Some (IFloat (30 / 3600)).
Proof.
  destruct (raster_info_null_and_float demo_py demo_session "elevation"
              demo_info_complete) as (m & Hret & Hmin & Hmax & Hres).
  exists m. split; [exact Hret|].
  split; [exact (Hmin eq_refl)|].
  split; [exact (Hmax eq_refl eq_refl)|].
  destruct (Hres eq_refl) as (f & Hf & Hm).
  injection Hf as <-. exact Hm.
Defined.

(** ** [string.Template] *)

Lemma span_id_chars_length (s : string) :
  (String.length (span_id_chars s).2 ≤ String.length s)%nat.
Proof.
  induction s as [|c s IH]; simpl; [lia|].
  destruct (is_id_char c); simpl; [|lia].
  destruct (span_id_chars s) as [i r]. simpl in *. lia.
Qed.

Lemma match_id_length (s i r : string) :
  match_id s = Some (i, r) → (String.length r < String.length s)%nat.
Proof.
  destruct s as [|c s]; simpl; [done|].
  destruct (is_id_start c); [|done].
  pose proof (span_id_chars_length s) as Hlen.
  destruct (span_id_chars s) as [i' r']. simpl in Hlen.
  intros [= <- <-]. lia.
Qed.

Lemma match_delim_length (rest : string) :
  (String.length (match_delim rest).2 ≤ String.length rest)%nat.
Proof.
  unfold match_delim. destruct rest as [|c r]; [simpl; lia|].
  destruct (Ascii.eqb c "$"); [simpl; lia|].
  destruct (match_id (String c r)) as [[i r']|] eqn:Hid.
  { apply match_id_length in Hid. simpl in *. lia. }
  destruct (Ascii.eqb c "{"); [|simpl; lia].
  destruct (match_id r) as [[i [|c' r'']]|] eqn:Hid'; [simpl; lia| |simpl; lia].
  apply match_id_length in Hid'.
  destruct (Ascii.eqb c' "}"); simpl in *; lia.
Qed.

(** The scanner never runs out of fuel: any amount from the length of the
    template on gives the same tokens. *)
Lemma scan_fuel (n m : nat) (s : string) :
  (String.length s ≤ n)%nat → (String.length s ≤ m)%nat → scan n s = scan m s.
Proof.
  revert m s. induction n as [|n IH]; intros m s Hn Hm.
  - destruct s; [|simpl in Hn; lia]. by destruct m.
  - destruct m as [|m].
    { destruct s; [done|simpl in Hm; lia]. }
    destruct s as [|c rest]; [done|]. simpl in Hn, Hm. simpl.
    destruct (Ascii.eqb c "$").
    + pose proof (match_delim_length rest) as Hlen.
      destruct (match_delim rest) as [tok rest']. simpl in Hlen.
      f_equal. apply IH; lia.
    + f_equal. apply IH; lia.
Qed.

Lemma convert_all_outcome (ts : list token) (mapping : gmap string string) :
  (∃ e, convert_all ts mapping = Returned e) ∨
  (∃ x, convert_all ts mapping = Raised x ∧ is_template_error x = true).
Proof.
  induction ts as [|tok ts IH]; simpl.
  - left. by eexists.
  - destruct tok as [c| |id|id|]; unfold getitem;
      try destruct (mapping !! id) as [val|]; simpl;
      try (right; by eexists);
      destruct IH as [[e ->]|(x & -> & Hx)]; simpl;
      (left; by eexists) || (right; by eexists).
Qed.

(** A placeholder without a binding makes the substitution fail. *)
Lemma convert_all_missing (ts : list token) (mapping : gmap string string)
    (id : string) :
  TNamed id ∈ ts ∨ TBraced id ∈ ts →
  mapping !! id = None →
  ∃ x, convert_all ts mapping = Raised x ∧ is_template_error x = true.
Proof.
  intros Hin Hnone. induction ts as [|tok ts IH].
  - destruct Hin as [Hin|Hin]; by apply elem_of_nil in Hin.
  - assert (Hcase : tok = TNamed id ∨ tok = TBraced id ∨
                    (TNamed id ∈ ts ∨ TBraced id ∈ ts)).
    { destruct Hin as [Hin|Hin]; apply elem_of_cons in Hin as [->|Hin]; auto. }
    destruct Hcase as [->|[->|Hrest]].
    + simpl. unfold getitem. rewrite Hnone. by eexists.
    + simpl. unfold getitem. rewrite Hnone. by eexists.
    + destruct (IH Hrest) as (x & Hx & Herr).
      destruct tok as [c| |id'|id'|]; simpl; unfold getitem;
        try destruct (mapping !! id') as [val|]; simpl;
        try rewrite Hx; simpl; by eexists.
Qed.

(** ** [mapcalc] and [mapcalc_start] *)

Lemma is_auto_spec (seed : pyval) : is_auto seed = true ↔ seed = VStr "auto".
Proof.
  destruct seed as [|s| | |]; simpl; try (split; [done|discriminate]).
  rewrite String.eqb_eq. split; [by intros ->|by intros [= ->]].
Qed.

Lemma substitute_not_fatal (exp msg : string) (kw : gmap string string) :
  substitute exp kw ≠ FatalExit msg.
Proof.
  unfold substitute.
  destruct (convert_all_outcome (tokens exp) kw) as [[e ->]|(x & -> & _)];
    discriminate.
Qed.

(** What a call of [mapcalc] does, case by case. *)
Lemma mapcalc_run (py : pylib) (w : session) (exp : string)
    (quiet verbose overwrite : bool) (seed env : pyval)
    (kw : gmap string string) :
  let args :=
    mapcalc_args env (seed_resolution py w seed) quiet verbose overwrite in
  run (mapcalc py w exp quiet verbose overwrite seed env kw)
    = match substitute exp kw with
      | Returned e =>
          if Z.eqb (tool_exit w "r.mapcalc" args e) 0
          then (Returned tt, [EvWriteCommand "r.mapcalc" args e])
          else (FatalExit (gettext py mapcalc_failure),
                [EvWriteCommand "r.mapcalc" args e;
                 EvFatal (gettext py mapcalc_failure)])
      | Raised x => (Raised x, [])
      | FatalExit msg => (FatalExit msg, [])
      end.
Proof.
  unfold mapcalc, seed_resolution, run, mbind, M_bind, lift,
    except_CalledModuleError, write_command, fatal, emit, mbind, M_bind.
  cbn -[substitute Z.modulo Z.pow].
  destruct (substitute exp kw) as [e|x|msg]; [|done..].
  cbn -[Z.modulo Z.pow].
  by destruct (Z.eqb _ 0).
Qed.

(** What a call of [mapcalc_start] does, case by case. *)
Lemma mapcalc_start_run (py : pylib) (w : session) (exp : string)
    (quiet verbose overwrite : bool) (seed env : pyval)
    (kw : gmap string string) :
  let args :=
    mapcalc_args env (seed_resolution py w seed) quiet verbose overwrite in
  let p := popen w "r.mapcalc" args in
  run (mapcalc_start py w exp quiet verbose overwrite seed env kw)
    = match substitute exp kw with
      | Returned e =>
          (Returned p,
           [EvFeedCommand "r.mapcalc" args p; EvStdinWrite p e;
            EvStdinClose p])
      | Raised x => (Raised x, [])
      | FatalExit msg => (FatalExit msg, [])
      end.
Proof.
  unfold mapcalc_start, seed_resolution, run, mbind, M_bind, lift,
    feed_command, emit, mbind, M_bind.
  cbn -[substitute Z.modulo Z.pow].
  by destruct (substitute exp kw) as [e|x|msg].
Qed.

(** C4: when the template has a named placeholder without a binding, both
    [mapcalc] and [mapcalc_start] end in a template-substitution error
    ([KeyError], or [ValueError] for an ill-formed delimiter met first) and
    the trace is empty: no process was started. *)
Theorem mapcalc_missing_binding (py : pylib) (w : session) (exp : string)
    (quiet verbose overwrite : bool) (seed env : pyval)
    (kw : gmap string string) (id : string) :
  placeholder exp id →
  kw !! id = None →
  (∃ x, run (mapcalc py w exp quiet verbose overwrite seed env kw)
          = (Raised x, []) ∧ is_template_error x = true) ∧
  (∃ x, run (mapcalc_start py w exp quiet verbose overwrite seed env kw)
          = (Raised x, []) ∧ is_template_error x = true).
Proof.
  intros Hplace Hnone.
  destruct (convert_all_missing (tokens exp) kw id Hplace Hnone)
    as (x & Hx & Herr).
  rewrite mapcalc_run, mapcalc_start_run. unfold substitute. rewrite Hx.
  split; by exists x.
Qed.

Lemma mapcalc_missing_binding_witness :
  (∃ x, run (mapcalc demo_py demo_session "$out = ${in} * 2" false false true
               VNone VNone {[ "out" := "slope2" ]})
          = (Raised x, []) ∧ is_template_error x = true) ∧
  (∃ x, run (mapcalc_start demo_py demo_session "$out = ${in} * 2"
               false false true VNone VNone {[ "out" := "slope2" ]})
          = (Raised x, []) ∧ is_template_error x = true).
Proof.
  apply (mapcalc_missing_binding demo_py demo_session "$out = ${in} * 2"
           false false true VNone VNone {[ "out" := "slope2" ]} "in").
  - right. vm_compute. do 4 right. left.
  - reflexivity.
Defined.

(** C5: whenever the evaluator is run, both entry points run it once, with
    the same keyword arguments; for the seed ['auto'] the seed among them is
    [hash((pid, time)) % 2**32], an integer of the range from 0 to
    [2^32 - 1]; any other seed, [None] included, is passed as it came. *)
Theorem mapcalc_seed (py : pylib) (w : session) (exp : string)
    (quiet verbose overwrite : bool) (seed env : pyval)
    (kw : gmap string string) (e : string) :
  substitute exp kw = Returned e →
  ∃ args,
    evaluator_runs
      (run (mapcalc py w exp quiet verbose overwrite seed env kw)).2
      = [args] ∧
    evaluator_runs
      (run (mapcalc_start py w exp quiet verbose overwrite seed env kw)).2
      = [args] ∧
    (seed = VStr "auto" →
     ∃ z, z = (py_hash py (getpid w) (time_time w) mod 2 ^ 32)%Z ∧
          (0 ≤ z < 2 ^ 32)%Z ∧
          kwarg "seed" args = Some (VInt z)) ∧
    (seed ≠ VStr "auto" → kwarg "seed" args = Some seed).
Proof.
  intros He.
  exists (mapcalc_args env (seed_resolution py w seed) quiet verbose overwrite).
  rewrite mapcalc_run, mapcalc_start_run, He.
  split; [by destruct (Z.eqb _ 0)|]. split; [done|].
  unfold seed_resolution. split.
  - intros ->. eexists. split; [reflexivity|]. split; [|reflexivity].
    apply Z.mod_pos_bound. lia.
  - intros Hne. destruct (is_auto seed) eqn:Hauto; [|reflexivity].
    by apply is_auto_spec in Hauto.
Qed.

Lemma demo_expansion :
  substitute "$out = rand(0, 9)" {[ "out" := "noise" ]}
    = Returned "noise = rand(0, 9)".
Proof. reflexivity. Defined.

Lemma mapcalc_seed_witness :
  ∃ args,
    evaluator_runs
      (run (mapcalc demo_py demo_session "$out = rand(0, 9)" true false false
              (VStr "auto") VNone {[ "out" := "noise" ]})).2 = [args] ∧
    kwarg "seed" args = Some (VInt 4242012719) ∧
  ∃ args',
    evaluator_runs
      (run (mapcalc_start demo_py demo_session "$out = rand(0, 9)"
              true false false (VInt 7) VNone {[ "out" := "noise" ]})).2
      = [args'] ∧
    kwarg "seed" args' = Some (VInt 7).
Proof.
  destruct (mapcalc_seed demo_py demo_session "$out = rand(0, 9)"
              true false false (VStr "auto") VNone {[ "out" := "noise" ]}
              "noise = rand(0, 9)" demo_expansion)
    as (args & Hsync & _ & Hauto & _).
  destruct (mapcalc_seed demo_py demo_session "$out = rand(0, 9)"
              true false false (VInt 7) VNone {[ "out" := "noise" ]}
              "noise = rand(0, 9)" demo_expansion)
    as (args' & _ & Hasync & _ & Hother).
  exists args. split; [exact Hsync|].
  destruct (Hauto eq_refl) as (z & -> & _ & Hz).
  split; [exact Hz|].
  exists args'. split; [exact Hasync|].
  apply Hother. discriminate.
Defined.

(** C6: when the evaluator is run and exits nonzero, [mapcalc] ends in
    [fatal] with the message that names [r.mapcalc]; the call neither
    returns nor hands the [CalledModuleError] on to its caller. *)
Theorem mapcalc_fatal_on_failure (py : pylib) (w : session) (exp : string)
    (quiet verbose overwrite : bool) (seed env : pyval)
    (kw : gmap string string) (e : string) :
  let args :=
    mapcalc_args env (seed_resolution py w seed) quiet verbose overwrite in
  substitute exp kw = Returned e →
  tool_exit w "r.mapcalc" args e ≠ 0%Z →
  run (mapcalc py w exp quiet verbose overwrite seed env kw)
    = (FatalExit (gettext py mapcalc_failure),
       [EvWriteCommand "r.mapcalc" args e;
        EvFatal (gettext py mapcalc_failure)]) ∧
  mentions mapcalc_failure "r.mapcalc" = true.
Proof.
  intros args He Hexit. rewrite mapcalc_run, He. fold args.
  apply Z.eqb_neq in Hexit. rewrite Hexit. by split.
Qed.

Lemma mapcalc_fatal_on_failure_witness :
  run (mapcalc demo_py demo_session "$text" false false false
         VNone VNone {[ "text" := "fail" ]})
    = (FatalExit "An error occurred while running r.mapcalc",
       [EvWriteCommand "r.mapcalc"
          (mapcalc_args VNone VNone false false false) "fail";
        EvFatal "An error occurred while running r.mapcalc"]).
Proof.
  apply (mapcalc_fatal_on_failure demo_py demo_session "$text"
           false false false VNone VNone {[ "text" := "fail" ]} "fail").
  - reflexivity.
  - vm_compute. discriminate.
Defined.

(** C7: [mapcalc] and [mapcalc_start] share expansion and seeding.  When the
    template expands to [e], both run [r.mapcalc] with the same keyword
    arguments, the resolved seed among them; [mapcalc] gives [e] to the tool
    as its standard input, [mapcalc_start] writes [e] to the input stream
    of the process, closes the stream and returns the process.  When the
    expansion raises, both raise the same exception and start nothing. *)
Theorem mapcalc_start_same_pipeline (py : pylib) (w : session) (exp : string)
    (quiet verbose overwrite : bool) (seed env : pyval)
    (kw : gmap string string) :
  let args :=
    mapcalc_args env (seed_resolution py w seed) quiet verbose overwrite in
  let p := popen w "r.mapcalc" args in
  match substitute exp kw with
  | Returned e =>
      (∃ r rest,
         run (mapcalc py w exp quiet verbose overwrite seed env kw)
           = (r, EvWriteCommand "r.mapcalc" args e :: rest)) ∧
      run (mapcalc_start py w exp quiet verbose overwrite seed env kw)
        = (Returned p,
           [EvFeedCommand "r.mapcalc" args p; EvStdinWrite p e;
            EvStdinClose p])
  | Raised x =>
      run (mapcalc py w exp quiet verbose overwrite seed env kw)
        = (Raised x, []) ∧
      run (mapcalc_start py w exp quiet verbose overwrite seed env kw)
        = (Raised x, [])
  | FatalExit _ => False
  end.
Proof.
  intros args p. rewrite mapcalc_run, mapcalc_start_run. fold args p.
  destruct (substitute exp kw) as [e|x|msg] eqn:Hsub.
  - split; [|done]. destruct (Z.eqb _ 0); by eexists _, _.
  - done.
  - by apply substitute_not_fatal in Hsub.
Qed.

(** * Further properties *)

(** ** [raster_what]: what a well-formed output gives *)

Lemma fill_labels_three (lv ll lc : string) (line : list string) (i : nat) :
  (3 * i + 2 < length line)%nat →
  fill_labels [lv; ll; lc] line i (seq 0 3) ∅
    = Returned (triple [lv; ll; lc] (field line (3 * i))
                  (field line (3 * i + 1)) (field line (3 * i + 2))).
Proof.
  intros Hlen. unfold field. cbn -[Nat.mul Nat.add lookup].
  replace (i * 3 + 0)%nat with (3 * i)%nat by lia.
  replace (i * 3 + 1)%nat with (3 * i + 1)%nat by lia.
  replace (i * 3 + 2)%nat with (3 * i + 2)%nat by lia.
  destruct (lookup_lt_is_Some_2 line (3 * i)) as [v Hv]; [lia|].
  destruct (lookup_lt_is_Some_2 line (3 * i + 1)) as [l Hl]; [lia|].
  destruct (lookup_lt_is_Some_2 line (3 * i + 2)) as [c Hc]; [lia|].
  unfold index. rewrite Hv, Hl, Hc. reflexivity.
Qed.

Lemma sample_maps_enough (lv ll lc : string) (line : list string) (i : nat)
    (maps : list string) (data : list (gmap string (gmap string string))) :
  (3 * (i + length maps) ≤ length line)%nat →
  sample_maps [lv; ll; lc] line i maps data
    = Returned (data ++ imap (λ k, entry [lv; ll; lc] line (i + k)) maps).
Proof.
  revert i data. induction maps as [|m maps IH]; intros i data Hlen.
  - simpl. by rewrite app_nil_r.
  - cbn [length] in Hlen. cbn [sample_maps length].
    rewrite fill_labels_three by lia. cbn [mbind outcome_bind].
    rewrite IH by lia. rewrite imap_cons, <- app_assoc. cbn [app].
    do 3 f_equal.
    + unfold entry. by rewrite Nat.add_0_r.
    + apply imap_ext. intros k x _. unfold compose. f_equal. lia.
Qed.

Lemma sample_lines_enough (sep : ascii) (lv ll lc : string)
    (maps lines : list string) (data : list (gmap string (gmap string string))) :
  (∀ item, item ∈ lines →
     (3 * length maps ≤ length (drop 3 (split_on sep item)))%nat) →
  sample_lines sep [lv; ll; lc] maps lines data
    = Returned
        (data ++ (lines ≫= λ item,
                    line_entries [lv; ll; lc] maps
                      (drop 3 (split_on sep item)))).
Proof.
  revert data. induction lines as [|item lines IH]; intros data Hall.
  - simpl. by rewrite app_nil_r.
  - cbn [sample_lines]. rewrite sample_maps_enough.
    2:{ simpl. apply Hall. by left. }
    cbn [mbind outcome_bind]. rewrite IH.
    2:{ intros item' Hin. apply Hall. by right. }
    by rewrite bind_cons, <- app_assoc.
Qed.

Lemma labels_of_three (py : pylib) (localized : bool) :
  ∃ lv ll lc, labels_of py localized = [lv; ll; lc].
Proof. destruct localized; by eexists _, _, _. Qed.

(** What a call of [raster_what] does, in one equation. *)
Lemma raster_what_run (py : pylib) (w : session)
    (map : map_arg) (coord : coord_arg) (env : pyval) (localized : bool) :
  let out := tool_stdout w "r.what" (what_args py map coord env) in
  run (raster_what py w map coord env localized)
    = (if decide (out = "") then Returned []
       else sample_lines "|" (labels_of py localized) (map_list_of map)
              (splitlines out) [],
       [EvReadCommand "r.what" (what_args py map coord env)]).
Proof.
  intros out.
  unfold raster_what, read_command, run, mbind, M_bind, emit, lift. simpl.
  fold out. by destruct (decide (out = "")).
Qed.

(** On well-formed output [raster_what] returns the entries of the lines. *)
Lemma raster_what_well_formed (py : pylib) (w : session)
    (map : map_arg) (coord : coord_arg) (env : pyval) (localized : bool) :
  let out := tool_stdout w "r.what" (what_args py map coord env) in
  (∀ item, item ∈ splitlines out →
     (3 * length (map_list_of map)
        ≤ length (drop 3 (split_on "|" item)))%nat) →
  run (raster_what py w map coord env localized)
    = (Returned
         (splitlines out ≫= λ item,
            line_entries (labels_of py localized) (map_list_of map)
              (drop 3 (split_on "|" item))),
       [EvReadCommand "r.what" (what_args py map coord env)]).
Proof.
  intros out Hall. rewrite raster_what_run. fold out.
  destruct (decide (out = "")) as [Hempty|_].
  { by rewrite Hempty. }
  destruct (labels_of_three py localized) as (lv & ll & lc & ->).
  by rewrite sample_lines_enough.
Qed.

(** X1: when every line of the captured output has, after its three-field
    prefix, at least three fields for each requested raster, [raster_what]
    returns; the result lists, line by line and raster by raster in the
    order of the request, one single-key dictionary that maps the raster to
    the triple of its three fields.  Fields beyond those are ignored. *)
Theorem raster_what_contents (py : pylib) (w : session)
    (map : map_arg) (coord : coord_arg) (env : pyval) (localized : bool) :
  let out := tool_stdout w "r.what" (what_args py map coord env) in
  (∀ item, item ∈ splitlines out →
     (3 * length (map_list_of map)
        ≤ length (drop 3 (split_on "|" item)))%nat) →
  run (raster_what py w map coord env localized)
    = (Returned
         (splitlines out ≫= λ item,
            line_entries (labels_of py localized) (map_list_of map)
              (drop 3 (split_on "|" item))),
       [EvReadCommand "r.what" (what_args py map coord env)]).
Proof.
  intros out Hall. rewrite raster_what_run. fold out.
  destruct (decide (out = "")) as [Hempty|_].
  { by rewrite Hempty. }
  destruct (labels_of_three py localized) as (lv & ll & lc & ->).
  by rewrite sample_lines_enough.
Qed.

Lemma raster_what_contents_witness :
  run (raster_what demo_py demo_session (MapList ["elevation"; "geology"])
         (CoordTuple 0%float 0%float) VNone false)
    = (Returned
         (line_entries ["value"; "label"; "color"] ["elevation"; "geology"]
            ["1.5"; "low"; "255:0:0"; "7"; "high"; "0:0:255"]),
       [EvReadCommand "r.what"
          (what_args demo_py (MapList ["elevation"; "geology"])
             (CoordTuple 0%float 0%float) VNone)]).
Proof.
  refine (raster_what_contents demo_py demo_session
            (MapList ["elevation"; "geology"]) (CoordTuple 0%float 0%float)
            VNone false _).
  intros item Hitem. vm_compute in Hitem.
  apply list_elem_of_singleton in Hitem as ->. vm_compute. lia.
Defined.

(** X2: with an empty list of rasters [raster_what] returns the empty list,
    whatever the tool printed. *)
Theorem raster_what_no_rasters (py : pylib) (w : session)
    (coord : coord_arg) (env : pyval) (localized : bool) :
  run (raster_what py w (MapList []) coord env localized)
    = (Returned [],
       [EvReadCommand "r.what" (what_args py (MapList []) coord env)]).
Proof.
  rewrite raster_what_well_formed.
  - f_equal. f_equal.
    induction (splitlines _) as [|item lines IH]; [done|].
    by rewrite bind_cons, IH.
  - intros item _. simpl. lia.
Qed.

(** X3: when at least one raster is requested, [raster_what] returns exactly
    when every line of the output has three fields for each raster after the
    prefix; otherwise the outcome is [IndexError], and never anything else. *)
Theorem raster_what_returns_iff (py : pylib) (w : session)
    (map : map_arg) (coord : coord_arg) (env : pyval) (localized : bool) :
  map_list_of map ≠ [] →
  let out := tool_stdout w "r.what" (what_args py map coord env) in
  let enough :=
    ∀ item, item ∈ splitlines out →
      (3 * length (map_list_of map)
         ≤ length (drop 3 (split_on "|" item)))%nat in
  let r := (run (raster_what py w map coord env localized)).1 in
  ((∃ data, r = Returned data) ↔ enough) ∧
  (r = Raised IndexError ↔ ¬ enough).
Proof.
  intros Hmaps out enough r.
  set (P := λ item : string,
         (3 * length (map_list_of map)
            ≤ length (drop 3 (split_on "|" item)))%nat).
  assert (Henough : enough ↔ Forall P (splitlines out)).
  { unfold enough. by rewrite Forall_forall. }
  assert (Hyes : enough → ∃ data, r = Returned data).
  { intros Hall. unfold r. rewrite raster_what_well_formed by done.
    by eexists. }
  assert (Hno : ¬ enough → r = Raised IndexError).
  { rewrite Henough. intros Hnot.
    apply not_Forall_Exists in Hnot; [|apply _].
    apply Exists_exists in Hnot as (item & Hin & Hshort).
    unfold P, compose in Hshort.
    unfold r. rewrite raster_what_run. fold out. cbn [fst].
    destruct (decide (out = "")) as [Hempty|_].
    { rewrite Hempty in Hin. by apply elem_of_nil in Hin. }
    apply (sample_lines_short _ _ _ _ item); [done|done|].
    rewrite labels_of_length. lia. }
  destruct (decide (Forall P (splitlines out))) as [Hall|Hnot];
    rewrite <- Henough in *.
  - destruct (Hyes Hall) as [data Hret]. split; split; try done.
    rewrite Hret. discriminate.
  - pose proof (Hno Hnot) as Hraise. split; split; try done.
    intros [data Hret]. rewrite Hraise in Hret. discriminate.
Qed.

Lemma raster_what_returns_iff_witness :
  (run (raster_what demo_py demo_session
          (MapList ["elevation"; "geology"; "soils"])
          (CoordTuple 0%float 0%float) VNone true)).1
    = Raised IndexError.
Proof.
  assert (Hne : map_list_of (MapList ["elevation"; "geology"; "soils"]) ≠ [])
    by discriminate.
  apply (proj2 (raster_what_returns_iff demo_py demo_session
                  (MapList ["elevation"; "geology"; "soils"])
                  (CoordTuple 0%float 0%float) VNone true Hne)).
  intros Hall.
  specialize (Hall "0|0||1.5|low|255:0:0|7|high|0:0:255").
  vm_compute in Hall. specialize (Hall (list_elem_of_here _ _)). lia.
Defined.

Lemma raster_what_entry_count_witness :
  ∃ data,
    (run (raster_what demo_py demo_session (MapList ["elevation"; "geology"])
            (CoordTuple 0%float 0%float) VNone false)).1 = Returned data ∧
    length data = 2%nat.
Proof.
  eexists. split; [reflexivity|].
  exact (raster_what_entry_count demo_py demo_session
           (MapList ["elevation"; "geology"]) (CoordTuple 0%float 0%float)
           VNone false _ eq_refl).
Defined.

(** ** [raster_what]: the [localized] switch *)

Lemma relabel_triple (py : pylib) (value label color : string) :
  relabel py (triple ["value"; "label"; "color"] value label color)
    = triple (labels_of py true) value label color.
Proof.
  unfold relabel, triple at 2 3 4.
  rewrite lookup_insert_ne, lookup_insert_ne, lookup_insert_eq by done.
  rewrite lookup_insert_ne, lookup_insert_eq by done.
  by rewrite lookup_insert_eq.
Qed.

Lemma relabel_line_entries (py : pylib) (maps line : list string) :
  relabel_entries py (line_entries ["value"; "label"; "color"] maps line)
    = line_entries (labels_of py true) maps line.
Proof.
  unfold relabel_entries, line_entries. rewrite fmap_imap. apply imap_ext.
  intros i m _. unfold compose, entry.
  by rewrite map_fmap_singleton, relabel_triple.
Qed.

Lemma triple_lookups (lv ll lc value label color : string) :
  NoDup [lv; ll; lc] →
  triple [lv; ll; lc] value label color !! lv = Some value ∧
  triple [lv; ll; lc] value label color !! ll = Some label ∧
  triple [lv; ll; lc] value label color !! lc = Some color ∧
  dom (triple [lv; ll; lc] value label color) = {[lv; ll; lc]}.
Proof.
  intros Hnd. apply NoDup_cons in Hnd as [Hv Hnd].
  apply NoDup_cons in Hnd as [Hl _].
  apply not_elem_of_cons in Hv as [Hvl Hv].
  apply not_elem_of_cons in Hv as [Hvc _].
  apply not_elem_of_cons in Hl as [Hlc _].
  unfold triple. repeat split.
  - by rewrite !lookup_insert_ne, lookup_insert_eq by done.
  - by rewrite lookup_insert_ne, lookup_insert_eq by done.
  - by rewrite lookup_insert_eq.
  - rewrite !dom_insert_L, dom_empty_L. apply set_eq. intros x.
    rewrite !elem_of_union, !elem_of_singleton, elem_of_empty. tauto.
Qed.

(** The inner dictionaries of a plain result are triples. *)
Lemma line_entries_inner (labels maps line : list string)
    (e : gmap string (gmap string string)) (m : string)
    (d : gmap string string) :
  e ∈ line_entries labels maps line → e !! m = Some d →
  ∃ value label color, d = triple labels value label color.
Proof.
  unfold line_entries. intros He Hd.
  apply elem_of_lookup_imap in He as (i & m' & -> & _).
  unfold entry in Hd. apply lookup_singleton_Some in Hd as [_ <-].
  by eexists _, _, _.
Qed.

(** X5: when the catalogue gives the three labels three different
    translations, the [localized] switch renames the keys of the inner
    dictionaries and loses nothing.  On well-formed output the localized
    result is the plain result with every inner dictionary relabelled; a
    relabelled dictionary has the three translated keys and no other, and
    each translated key holds what the plain key holds. *)
Theorem raster_what_localized_relabels (py : pylib) (w : session)
    (map : map_arg) (coord : coord_arg) (env : pyval) :
  let out := tool_stdout w "r.what" (what_args py map coord env) in
  NoDup (labels_of py true) →
  (∀ item, item ∈ splitlines out →
     (3 * length (map_list_of map)
        ≤ length (drop 3 (split_on "|" item)))%nat) →
  ∃ data,
    (run (raster_what py w map coord env false)).1 = Returned data ∧
    (run (raster_what py w map coord env true)).1
      = Returned (relabel_entries py data) ∧
    ∀ e m d, e ∈ data → e !! m = Some d →
      ∃ value label color,
        (d !! "value" = Some value ∧ d !! "label" = Some label ∧
         d !! "color" = Some color) ∧
        (relabel py d !! gettext py "value" = Some value ∧
         relabel py d !! gettext py "label" = Some label ∧
         relabel py d !! gettext py "color" = Some color) ∧
        dom (relabel py d)
          = {[gettext py "value"; gettext py "label"; gettext py "color"]}.
Proof.
  intros out Hnd Hall. rewrite !raster_what_well_formed by done.
  eexists. split; [reflexivity|]. cbn [fst].
  change (labels_of py false) with ["value"; "label"; "color"].
  split.
  - f_equal. clear Hall. subst out.
    induction (splitlines _) as [|item lines IH]; [done|].
    rewrite !bind_cons, IH. unfold relabel_entries.
    rewrite fmap_app. f_equal. symmetry. apply relabel_line_entries.
  - intros e m d He Hd. fold out in He.
    apply list_elem_of_bind in He as (item & He & _).
    destruct (line_entries_inner _ _ _ e m d He Hd)
      as (value & label & color & ->).
    exists value, label, color.
    assert (Hplain : NoDup ["value"; "label"; "color"])
      by (by apply (bool_decide_unpack _)).
    destruct (triple_lookups _ _ _ value label color Hplain)
      as (Hv & Hl & Hc & _).
    split; [done|]. rewrite relabel_triple.
    destruct (triple_lookups _ _ _ value label color Hnd)
      as (Hv' & Hl' & Hc' & Hdom).
    done.
Qed.

Lemma raster_what_localized_relabels_witness :
  ∃ data,
    (run (raster_what german_py demo_session
            (MapList ["elevation"; "geology"])
            (CoordTuple 0%float 0%float) VNone false)).1 = Returned data ∧
    (run (raster_what german_py demo_session
            (MapList ["elevation"; "geology"])
            (CoordTuple 0%float 0%float) VNone true)).1
      = Returned (relabel_entries german_py data) ∧
    (run (raster_what german_py demo_session
            (MapList ["elevation"; "geology"])
            (CoordTuple 0%float 0%float) VNone true)).1
      = Returned
          [ {[ "elevation" := triple ["Wert"; "Beschriftung"; "Farbe"]
                                     "1.5" "low" "255:0:0" ]};
            {[ "geology" := triple ["Wert"; "Beschriftung"; "Farbe"]
                                   "7" "high" "0:0:255" ]} ].
Proof.
  assert (Hnd : NoDup (labels_of german_py true))
    by (by apply (bool_decide_unpack _)).
  destruct (raster_what_localized_relabels german_py demo_session
              (MapList ["elevation"; "geology"]) (CoordTuple 0%float 0%float)
              VNone Hnd) as (data & Hplain & Hloc & _).
  { intros item Hitem. vm_compute in Hitem.
    apply list_elem_of_singleton in Hitem as ->. vm_compute. lia. }
  exists data. split; [exact Hplain|]. split; [exact Hloc|]. reflexivity.
Defined.

(** ** [raster_what]: from rows of fields to entries *)

Lemma chars_app (a b : string) : chars (a +:+ b) = chars a ++ chars b.
Proof. induction a as [|c a IH]; simpl; [done|]. by rewrite IH. Qed.

Lemma split_on_clean (c : ascii) (s : string) :
  c ∉ chars s → split_on c s = [s].
Proof.
  induction s as [|a s IH]; simpl; [done|].
  rewrite not_elem_of_cons. intros [Hne Hs].
  destruct (Ascii.eqb_spec a c) as [->|_]; [done|]. by rewrite IH.
Qed.

Lemma split_on_append (c : ascii) (s rest : string) :
  c ∉ chars s →
  split_on c (s +:+ String c rest) = s :: split_on c rest.
Proof.
  induction s as [|a s IH]; simpl.
  - intros _. by rewrite Ascii.eqb_refl.
  - rewrite not_elem_of_cons. intros [Hne Hs].
    destruct (Ascii.eqb_spec a c) as [->|_]; [done|]. by rewrite IH.
Qed.

(** Splitting undoes joining, when no field holds the separator. *)
Lemma split_on_concat (c : ascii) (fields : list string) :
  fields ≠ [] →
  Forall (λ f, c ∉ chars f) fields →
  split_on c (String.concat (String c EmptyString) fields) = fields.
Proof.
  intros Hne Hclean. induction Hclean as [|f fields Hf Hclean IH]; [done|].
  destruct fields as [|f' fields].
  - simpl. by apply split_on_clean.
  - change (String.concat (String c EmptyString) (f :: f' :: fields))
      with (f +:+ String c (String.concat (String c EmptyString)
                              (f' :: fields))).
    rewrite split_on_append by done. f_equal. by apply IH.
Qed.

Lemma splitlines_append (l rest : string) :
  one_line l → splitlines (l +:+ String LF rest) = l :: splitlines rest.
Proof.
  intros [Hlf Hcr]. induction l as [|a l IH].
  - done.
  - simpl in Hlf, Hcr. apply not_elem_of_cons in Hlf as [Hlf1 Hlf2].
    apply not_elem_of_cons in Hcr as [Hcr1 Hcr2].
    change (String a l +:+ String LF rest)
      with (String a (l +:+ String LF rest)).
    cbn [splitlines].
    destruct (Ascii.eqb_spec a LF) as [->|_]; [done|].
    destruct (Ascii.eqb_spec a CR) as [->|_]; [done|].
    by rewrite IH.
Qed.

(** [splitlines] undoes [unlines], when no line holds a line end. *)
Lemma splitlines_unlines (ls : list string) :
  Forall one_line ls → splitlines (unlines ls) = ls.
Proof.
  induction 1 as [|l ls Hl Hls IH]; [done|].
  simpl. by rewrite splitlines_append, IH.
Qed.

Lemma chars_concat (sep : string) (fields : list string) (a : ascii) :
  a ∈ chars (String.concat sep fields) →
  a ∈ chars sep ∨ ∃ f, f ∈ fields ∧ a ∈ chars f.
Proof.
  induction fields as [|f fields IH]; intros Ha.
  - by apply elem_of_nil in Ha.
  - destruct fields as [|f' fields].
    + right. exists f. split; [by left|done].
    + change (String.concat sep (f :: f' :: fields))
        with (f +:+ (sep +:+ String.concat sep (f' :: fields))) in Ha.
      rewrite !chars_app, !elem_of_app in Ha.
      destruct Ha as [Ha|[Ha|Ha]].
      * right. exists f. split; [by left|done].
      * by left.
      * destruct (IH Ha) as [?|(g & Hg & Hag)]; [by left|].
        right. exists g. split; [by right|done].
Qed.

Lemma one_line_concat (fields : list string) :
  Forall one_line fields → one_line (String.concat "|" fields).
Proof.
  intros Hall. rewrite Forall_forall in Hall.
  split; intros Hin; apply chars_concat in Hin as [Hsep|(f & Hf & Hin)].
  - apply list_elem_of_singleton in Hsep. discriminate Hsep.
  - by destruct (Hall f Hf).
  - apply list_elem_of_singleton in Hsep. discriminate Hsep.
  - by destruct (Hall f Hf).
Qed.

(** X6: the reshaping undoes the tool's formatting.  When the tool prints
    one line for each row, the fields of a row joined by the pipe, no field
    holding a pipe or a line end, and every row has its three-field prefix
    and three fields for each raster, [raster_what] returns the entries of
    the rows: row by row, raster by raster, the triple of the raster's three
    fields. *)
Theorem raster_what_reads_rows (py : pylib) (w : session)
    (map : map_arg) (coord : coord_arg) (env : pyval) (localized : bool)
    (rows : list (list string)) :
  tool_stdout w "r.what" (what_args py map coord env)
    = unlines (String.concat "|" <$> rows) →
  (∀ row, row ∈ rows →
     (3 + 3 * length (map_list_of map) ≤ length row)%nat ∧
     Forall (λ f, ("|"%char ∉ chars f) ∧ one_line f) row) →
  run (raster_what py w map coord env localized)
    = (Returned
         (rows ≫= λ row,
            line_entries (labels_of py localized) (map_list_of map)
              (drop 3 row)),
       [EvReadCommand "r.what" (what_args py map coord env)]).
Proof.
  intros Hout Hrows.
  assert (Hsplit : ∀ row, row ∈ rows →
            split_on "|" (String.concat "|" row) = row).
  { intros row Hrow. destruct (Hrows row Hrow) as [Hlen Hclean].
    apply split_on_concat.
    - intros ->. simpl in Hlen. lia.
    - eapply Forall_impl; [exact Hclean|]. by intros f [? _]. }
  assert (Hlines : splitlines (unlines (String.concat "|" <$> rows))
                     = String.concat "|" <$> rows).
  { apply splitlines_unlines, Forall_fmap, Forall_forall.
    intros row Hrow. apply one_line_concat.
    destruct (Hrows row Hrow) as [_ Hclean].
    eapply Forall_impl; [exact Hclean|]. by intros f [_ ?]. }
  rewrite raster_what_well_formed.
  - rewrite Hout, Hlines, list_fmap_bind. do 2 f_equal.
    clear Hout Hlines.
    induction rows as [|row rows IH]; [done|].
    rewrite !bind_cons. unfold compose at 1.
    rewrite Hsplit by (by left). f_equal.
    apply IH.
    + intros r Hr. apply Hrows. by right.
    + intros r Hr. apply Hsplit. by right.
  - rewrite Hout, Hlines. intros item Hitem.
    apply list_elem_of_fmap in Hitem as (row & -> & Hrow).
    rewrite (Hsplit row Hrow), length_drop.
    destruct (Hrows row Hrow) as [Hlen _]. lia.
Qed.

Lemma raster_what_reads_rows_witness :
  run (raster_what demo_py demo_session (MapList ["elevation"; "geology"])
         (CoordTuple 0%float 0%float) VNone false)
    = (Returned
         ([["0"; "0"; ""; "1.5"; "low"; "255:0:0"; "7"; "high"; "0:0:255"]]
            ≫= λ row,
              line_entries (labels_of demo_py false)
                ["elevation"; "geology"] (drop 3 row)),
       [EvReadCommand "r.what"
          (what_args demo_py (MapList ["elevation"; "geology"])
             (CoordTuple 0%float 0%float) VNone)]).
Proof.
  apply (raster_what_reads_rows demo_py demo_session
           (MapList ["elevation"; "geology"]) (CoordTuple 0%float 0%float)
           VNone false
           [["0"; "0"; ""; "1.5"; "low"; "255:0:0"; "7"; "high"; "0:0:255"]]).
  - reflexivity.
  - intros row Hrow. apply list_elem_of_singleton in Hrow as ->.
    split; [simpl; lia|].
    apply Forall_forall. intros f Hf.
    repeat (apply elem_of_cons in Hf as [->|Hf]);
      try (by apply elem_of_nil in Hf);
      unfold one_line; by apply (bool_decide_unpack _).
Defined.

(** ** [mapcalc] and [mapcalc_start]: when the template expands *)

Lemma scan_plain (n : nat) (s : string) :
  "$"%char ∉ chars s → (String.length s ≤ n)%nat →
  scan n s = TLit <$> chars s.
Proof.
  revert n. induction s as [|c s IH]; intros n Hclean Hlen.
  - by destruct n.
  - destruct n as [|n]; [simpl in Hlen; lia|].
    simpl in Hclean, Hlen. apply not_elem_of_cons in Hclean as [Hc Hs].
    change (TLit <$> chars (String c s)) with (TLit c :: (TLit <$> chars s)).
    cbn [scan].
    destruct (Ascii.eqb_spec c "$") as [->|_]; [done|].
    f_equal. apply IH; [done|lia].
Qed.

Lemma convert_all_plain (s : string) (mapping : gmap string string) :
  convert_all (TLit <$> chars s) mapping = Returned s.
Proof.
  induction s as [|c s IH]; [done|].
  change (TLit <$> chars (String c s)) with (TLit c :: (TLit <$> chars s)).
  cbn [convert_all]. by rewrite IH.
Qed.

Lemma substitute_plain (exp : string) (mapping : gmap string string) :
  "$"%char ∉ chars exp → substitute exp mapping = Returned exp.
Proof.
  intros Hclean. unfold substitute, tokens.
  rewrite scan_plain by done. apply convert_all_plain.
Qed.

(** X7: an expression without a [$] reaches [r.mapcalc] as it is, whatever
    the bindings: [mapcalc] gives it to the tool as its standard input and
    [mapcalc_start] writes it to the input stream of the process. *)
Theorem mapcalc_plain_expression (py : pylib) (w : session) (exp : string)
    (quiet verbose overwrite : bool) (seed env : pyval)
    (kw : gmap string string) :
  "$"%char ∉ chars exp →
  let args :=
    mapcalc_args env (seed_resolution py w seed) quiet verbose overwrite in
  let p := popen w "r.mapcalc" args in
  (∃ r rest,
     run (mapcalc py w exp quiet verbose overwrite seed env kw)
       = (r, EvWriteCommand "r.mapcalc" args exp :: rest)) ∧
  run (mapcalc_start py w exp quiet verbose overwrite seed env kw)
    = (Returned p,
       [EvFeedCommand "r.mapcalc" args p; EvStdinWrite p exp;
        EvStdinClose p]).
Proof.
  intros Hclean args p.
  rewrite mapcalc_run, mapcalc_start_run, substitute_plain by done.
  split; [|done]. fold args. destruct (Z.eqb _ 0); by eexists _, _.
Qed.

Lemma mapcalc_plain_expression_witness :
  run (mapcalc_start demo_py demo_session "slope2 = slope * 2"
         false false true VNone VNone ∅)
    = (Returned (popen demo_session "r.mapcalc"
                   (mapcalc_args VNone VNone false false true)),
       [EvFeedCommand "r.mapcalc" (mapcalc_args VNone VNone false false true)
          (popen demo_session "r.mapcalc"
             (mapcalc_args VNone VNone false false true));
        EvStdinWrite (popen demo_session "r.mapcalc"
                        (mapcalc_args VNone VNone false false true))
          "slope2 = slope * 2";
        EvStdinClose (popen demo_session "r.mapcalc"
                        (mapcalc_args VNone VNone false false true))]).
Proof.
  apply (mapcalc_plain_expression demo_py demo_session "slope2 = slope * 2"
           false false true VNone VNone ∅).
  by apply (bool_decide_unpack _).
Defined.

Lemma convert_all_weaken (ts : list token) (kw kw' : gmap string string)
    (e : string) :
  kw ⊆ kw' → convert_all ts kw = Returned e → convert_all ts kw' = Returned e.
Proof.
  intros Hsub. revert e. induction ts as [|tok ts IH]; intros e Hret.
  - done.
  - destruct tok as [c| |id|id|]; simpl in *; unfold getitem in *;
      try destruct (kw !! id) as [val|] eqn:Hval; simpl in Hret; try done;
      try rewrite (lookup_weaken _ _ _ _ Hval Hsub); simpl;
      destruct (convert_all ts kw) as [r| |]; simpl in Hret; try done;
      by rewrite (IH r eq_refl).
Qed.

(** X8: bindings the template does not ask for change nothing: when the
    template expands under some bindings, both entry points behave the same
    under any larger set of bindings. *)
Theorem mapcalc_extra_bindings (py : pylib) (w : session) (exp : string)
    (quiet verbose overwrite : bool) (seed env : pyval)
    (kw kw' : gmap string string) (e : string) :
  kw ⊆ kw' →
  substitute exp kw = Returned e →
  run (mapcalc py w exp quiet verbose overwrite seed env kw')
    = run (mapcalc py w exp quiet verbose overwrite seed env kw) ∧
  run (mapcalc_start py w exp quiet verbose overwrite seed env kw')
    = run (mapcalc_start py w exp quiet verbose overwrite seed env kw).
Proof.
  intros Hsub He. rewrite !mapcalc_run, !mapcalc_start_run.
  assert (He' : substitute exp kw' = Returned e)
    by exact (convert_all_weaken _ _ _ _ Hsub He).
  by rewrite He, He'.
Qed.

Lemma mapcalc_extra_bindings_witness :
  run (mapcalc_start demo_py demo_session "$out = rand(0, 9)"
         true false false (VInt 7) VNone
         {[ "out" := "noise"; "unused" := "x" ]})
    = run (mapcalc_start demo_py demo_session "$out = rand(0, 9)"
             true false false (VInt 7) VNone {[ "out" := "noise" ]}).
Proof.
  apply (mapcalc_extra_bindings demo_py demo_session "$out = rand(0, 9)"
           true false false (VInt 7) VNone
           {[ "out" := "noise" ]} {[ "out" := "noise"; "unused" := "x" ]}
           "noise = rand(0, 9)").
  - apply map_subseteq_spec. intros k v Hk.
    apply lookup_singleton_Some in Hk as [<- <-]. reflexivity.
  - reflexivity.
Defined.

Lemma convert_all_returns (ts : list token) (kw : gmap string string) :
  TInvalid ∉ ts →
  (∀ id, TNamed id ∈ ts ∨ TBraced id ∈ ts → is_Some (kw !! id)) →
  ∃ e, convert_all ts kw = Returned e.
Proof.
  induction ts as [|tok ts IH]; intros Hvalid Hbound.
  - by eexists.
  - apply not_elem_of_cons in Hvalid as [Htok Hvalid].
    destruct IH as [r Hr]; [done| |].
    { intros id [Hid|Hid]; apply Hbound; [left|right]; by right. }
    destruct tok as [c| |id|id|]; cbn [convert_all]; rewrite ?Hr.
    + by eexists.
    + by eexists.
    + destruct (Hbound id) as [val Hval]; [left; by left|].
      unfold getitem. rewrite Hval. by eexists.
    + destruct (Hbound id) as [val Hval]; [right; by left|].
      unfold getitem. rewrite Hval. by eexists.
    + done.
Qed.

Lemma convert_all_invalid (ts : list token) (kw : gmap string string) :
  TInvalid ∈ ts →
  ∃ x, convert_all ts kw = Raised x ∧ is_template_error x = true.
Proof.
  induction ts as [|tok ts IH]; intros Hin.
  - by apply elem_of_nil in Hin.
  - apply elem_of_cons in Hin as [<-|Hin]; [by eexists|].
    destruct (IH Hin) as (x & Hx & Herr).
    destruct tok as [c| |id|id|]; simpl; unfold getitem;
      try destruct (kw !! id) as [val|]; simpl;
      try rewrite Hx; simpl; by eexists.
Qed.

(** The template expands exactly when it is expandable. *)
Lemma substitute_returns_iff (exp : string) (kw : gmap string string) :
  (∃ e, substitute exp kw = Returned e) ↔ expandable exp kw.
Proof.
  unfold substitute, expandable, placeholder. split.
  - intros [e He]. split.
    + intros Hin. destruct (convert_all_invalid _ kw Hin) as (x & Hx & _).
      rewrite Hx in He. discriminate.
    + intros id Hid. destruct (kw !! id) as [val|] eqn:Hval; [by eexists|].
      destruct (convert_all_missing _ kw id Hid Hval) as (x & Hx & _).
      rewrite Hx in He. discriminate.
  - intros [Hvalid Hbound]. by apply convert_all_returns.
Qed.

(** X9: [mapcalc_start] returns a process exactly when the template is
    expandable, that is, every [$] starts a well-formed match and every
    placeholder has a binding; otherwise it starts nothing. *)
Theorem mapcalc_start_returns_iff (py : pylib) (w : session) (exp : string)
    (quiet verbose overwrite : bool) (seed env : pyval)
    (kw : gmap string string) :
  let r := run (mapcalc_start py w exp quiet verbose overwrite seed env kw) in
  ((∃ p, r.1 = Returned p) ↔ expandable exp kw) ∧
  (¬ expandable exp kw → r.2 = []).
Proof.
  intros r. unfold r. rewrite mapcalc_start_run.
  rewrite <- substitute_returns_iff. split; [split|].
  - intros [p Hp]. destruct (substitute exp kw) as [e| |]; [by eexists|done..].
  - intros [e ->]. by eexists.
  - intros Hnot. destruct (substitute exp kw) as [e| |]; [|done..].
    exfalso. apply Hnot. by eexists.
Qed.

(** X10: [mapcalc] returns exactly when the template expands and the tool
    then exits with status zero. *)
Theorem mapcalc_returns_iff (py : pylib) (w : session) (exp : string)
    (quiet verbose overwrite : bool) (seed env : pyval)
    (kw : gmap string string) :
  let args :=
    mapcalc_args env (seed_resolution py w seed) quiet verbose overwrite in
  (run (mapcalc py w exp quiet verbose overwrite seed env kw)).1 = Returned tt
  ↔ ∃ e, substitute exp kw = Returned e ∧
         tool_exit w "r.mapcalc" args e = 0%Z.
Proof.
  intros args. rewrite mapcalc_run. fold args. split.
  - destruct (substitute exp kw) as [e| |]; [|done..].
    destruct (Z.eqb_spec (tool_exit w "r.mapcalc" args e) 0); [|done].
    intros _. by exists e.
  - intros (e & -> & Hexit). by rewrite Hexit.
Qed.

(** X11: [mapcalc_start] never reports a failure of the tool: it ends
    neither in [fatal] nor in [CalledModuleError], and no message is
    emitted; the only exceptions are those of the template. *)
Theorem mapcalc_start_never_fatal (py : pylib) (w : session) (exp : string)
    (quiet verbose overwrite : bool) (seed env : pyval)
    (kw : gmap string string) :
  let r := run (mapcalc_start py w exp quiet verbose overwrite seed env kw) in
  match r.1 with
  | Returned _ => True
  | Raised x => is_template_error x = true
  | FatalExit _ => False
  end ∧
  ∀ msg, (EvFatal msg ∉ r.2) ∧ (EvWarning msg ∉ r.2).
Proof.
  intros r. unfold r. rewrite mapcalc_start_run. unfold substitute.
  destruct (convert_all_outcome (tokens exp) kw) as [[e ->]|(x & -> & Hx)];
    cbn [fst snd].
  - split; [done|]. intros msg.
    split; intros Hin; repeat (apply elem_of_cons in Hin as [Hin|Hin]);
      try discriminate; by apply elem_of_nil in Hin.
  - split; [done|]. intros msg. split; apply not_elem_of_nil.
Qed.

(** X12: the flags and the environment reach the tool unchanged: whenever
    the evaluator is run, by either entry point, its keyword arguments hold
    [quiet], [verbose], [overwrite] and [env] as the caller gave them, and
    [file] is ["-"]. *)
Theorem mapcalc_flags_pass_through (py : pylib) (w : session) (exp : string)
    (quiet verbose overwrite : bool) (seed env : pyval)
    (kw : gmap string string) (args : kwargs) :
  args ∈ evaluator_runs
           (run (mapcalc py w exp quiet verbose overwrite seed env kw)).2 ∨
  args ∈ evaluator_runs
           (run (mapcalc_start py w exp quiet verbose overwrite seed env kw)).2 →
  kwarg "quiet" args = Some (VBool quiet) ∧
  kwarg "verbose" args = Some (VBool verbose) ∧
  kwarg "overwrite" args = Some (VBool overwrite) ∧
  kwarg "env" args = Some env ∧
  kwarg "file" args = Some (VStr "-").
Proof.
  rewrite mapcalc_run, mapcalc_start_run.
  intros Hin.
  assert (Hargs : args = mapcalc_args env (seed_resolution py w seed)
                           quiet verbose overwrite).
  { destruct (substitute exp kw) as [e| |]; cbn [snd] in Hin.
    - destruct Hin as [Hin|Hin].
      + destruct (Z.eqb _ 0); cbn in Hin;
          by apply list_elem_of_singleton in Hin.
      + cbn in Hin. by apply list_elem_of_singleton in Hin.
    - destruct Hin as [Hin|Hin]; by apply elem_of_nil in Hin.
    - destruct Hin as [Hin|Hin]; by apply elem_of_nil in Hin. }
  by rewrite Hargs.
Qed.

Lemma mapcalc_returns_iff_witness :
  (run (mapcalc demo_py demo_session "$out = rand(0, 9)" true false false
          (VInt 7) VNone {[ "out" := "noise" ]})).1 = Returned tt.
Proof.
  apply (proj2 (mapcalc_returns_iff demo_py demo_session "$out = rand(0, 9)"
                  true false false (VInt 7) VNone {[ "out" := "noise" ]})).
  exists "noise = rand(0, 9)". split; reflexivity.
Defined.

Lemma demo_expandable :
  expandable "$out = ${in} * 2" {[ "out" := "slope2"; "in" := "slope" ]}.
Proof.
  apply substitute_returns_iff. by eexists.
Defined.

Lemma mapcalc_start_returns_iff_witness :
  ∃ p, (run (mapcalc_start demo_py demo_session "$out = ${in} * 2"
               false false false VNone VNone
               {[ "out" := "slope2"; "in" := "slope" ]})).1 = Returned p.
Proof.
  apply (proj1 (mapcalc_start_returns_iff demo_py demo_session
                  "$out = ${in} * 2" false false false VNone VNone
                  {[ "out" := "slope2"; "in" := "slope" ]})).
  exact demo_expandable.
Defined.

Lemma mapcalc_flags_pass_through_witness :
  kwarg "quiet" (mapcalc_args VNone (VInt 7) true false false)
    = Some (VBool true) ∧
  kwarg "verbose" (mapcalc_args VNone (VInt 7) true false false)
    = Some (VBool false) ∧
  kwarg "overwrite" (mapcalc_args VNone (VInt 7) true false false)
    = Some (VBool false) ∧
  kwarg "env" (mapcalc_args VNone (VInt 7) true false false) = Some VNone ∧
  kwarg "file" (mapcalc_args VNone (VInt 7) true false false)
    = Some (VStr "-").
Proof.
  apply (mapcalc_flags_pass_through demo_py demo_session "$out = rand(0, 9)"
           true false false (VInt 7) VNone {[ "out" := "noise" ]}).
  right. vm_compute. apply list_elem_of_here.
Defined.

(** ** [raster_info]: when it returns and how it fails *)

(** X13: [raster_info] returns a dictionary exactly when the reporter's
    output has all eight coerced fields and each of them parses. *)
Theorem raster_info_returns_iff (py : pylib) (w : session) (map : string) :
  (∃ m, (run (raster_info py w map)).1 = Returned m)
  ↔ complete_info py
      (parse_key_val py (tool_stdout w "r.info" (info_args map))).
Proof.
  rewrite raster_info_run. cbn [fst]. split.
  - intros [m Hret]. by apply (coerce_all_complete py _ m).
  - apply coerce_all_total.
Qed.

Lemma coerce_fields_pairs (f : info_value → outcome info_value)
    (ks : list string) (kv : gmap string info_value) :
  coerce_fields f ks kv = coerce_pairs ((λ k, (k, f)) <$> ks) kv.
Proof.
  revert kv. induction ks as [|k ks IH]; intros kv; [done|].
  cbn [coerce_fields fmap list_fmap coerce_pairs].
  destruct (getitem kv k) as [v| |]; [|done..]. cbn [mbind outcome_bind].
  destruct (f v) as [v'| |]; [|done..]. cbn [mbind outcome_bind].
  apply IH.
Qed.

Lemma coerce_pairs_app
    (fs1 fs2 : list (string * (info_value → outcome info_value)))
    (kv : gmap string info_value) :
  coerce_pairs (fs1 ++ fs2) kv
    = kv1 ← coerce_pairs fs1 kv; coerce_pairs fs2 kv1.
Proof.
  revert kv. induction fs1 as [|[k f] fs1 IH]; intros kv; [done|].
  cbn [app coerce_pairs].
  destruct (getitem kv k) as [v| |]; [|done..]. cbn [mbind outcome_bind].
  destruct (f v) as [v'| |]; [|done..]. cbn [mbind outcome_bind].
  apply IH.
Qed.

(** The three loops are one loop over the eight fields. *)
Lemma coerce_all_pairs (py : pylib) (kv : gmap string info_value) :
  coerce_all py kv = coerce_pairs (info_fields py) kv.
Proof.
  unfold coerce_all. rewrite !coerce_fields_pairs.
  change (info_fields py)
    with (((λ k, (k, float_or_null py)) <$> ["min"; "max"])
          ++ ((λ k, (k, float_ py)) <$> ["north"; "south"; "east"; "west"])
          ++ ((λ k, (k, float_or_dms_ py)) <$> ["nsres"; "ewres"])).
  rewrite coerce_pairs_app.
  destruct (coerce_pairs _ kv) as [kv1| |]; [|done..].
  cbn [mbind outcome_bind]. rewrite coerce_fields_pairs, coerce_pairs_app.
  destruct (coerce_pairs _ kv1) as [kv2| |]; [|done..].
  cbn [mbind outcome_bind]. apply coerce_fields_pairs.
Qed.

(** Fields that parse are passed; the fields after them are still the
    reporter's text. *)
Lemma coerce_pairs_prefix
    (pre rest : list (string * (info_value → outcome info_value)))
    (kv0 : gmap string string) (kv : gmap string info_value) :
  NoDup ((pre ++ rest).*1) →
  (∀ k f, (k, f) ∈ pre → parses f kv0 k) →
  (∀ k, k ∈ (pre ++ rest).*1 → kv !! k = IText <$> kv0 !! k) →
  ∃ kv', coerce_pairs pre kv = Returned kv' ∧
         ∀ k, k ∈ rest.*1 → kv' !! k = IText <$> kv0 !! k.
Proof.
  revert kv. induction pre as [|[k f] pre IH]; intros kv Hnd Hparse Hkv.
  - exists kv. split; [done|]. intros k Hk. by apply Hkv.
  - cbn [app fmap list_fmap fst] in Hnd, Hkv.
    apply NoDup_cons in Hnd as [Hk Hnd].
    destruct (Hparse k f) as (s & v & Hs & Hf); [by left|].
    cbn [coerce_pairs]. unfold getitem.
    rewrite (Hkv k), Hs by (by left). cbn [fmap option_fmap option_map].
    cbn [mbind outcome_bind]. rewrite Hf. cbn [mbind outcome_bind].
    apply IH; [done| |].
    + intros k' f' Hin. apply Hparse. by right.
    + intros k' Hk'. rewrite lookup_insert_ne by (intros ->; done).
      apply Hkv. by right.
Qed.

Lemma info_fields_NoDup (py : pylib) : NoDup (info_fields py).*1.
Proof. by apply (bool_decide_unpack _). Qed.

(** X14: the first of the eight fields, in the order [min], [max], [north],
    [south], [east], [west], [nsres], [ewres], that is missing or does not
    parse decides how [raster_info] fails: a missing field raises
    [KeyError] with its name, a field whose coercion raises hands that
    exception on. *)
Theorem raster_info_first_failure (py : pylib) (w : session) (map : string)
    (pre post : list (string * (info_value → outcome info_value)))
    (k : string) (f : info_value → outcome info_value) :
  let kv0 := parse_key_val py (tool_stdout w "r.info" (info_args map)) in
  info_fields py = pre ++ (k, f) :: post →
  (∀ k' f', (k', f') ∈ pre → parses f' kv0 k') →
  (kv0 !! k = None →
   run (raster_info py w map)
     = (Raised (KeyError k), [EvReadCommand "r.info" (info_args map)])) ∧
  (∀ s x, kv0 !! k = Some s → f (IText s) = Raised x →
   run (raster_info py w map)
     = (Raised x, [EvReadCommand "r.info" (info_args map)])).
Proof.
  intros kv0 Hfields Hparse.
  rewrite raster_info_run, coerce_all_pairs, Hfields, coerce_pairs_app.
  fold kv0.
  destruct (coerce_pairs_prefix pre ((k, f) :: post) kv0 (IText <$> kv0))
    as (kv' & -> & Hrest).
  { rewrite <- Hfields. apply info_fields_NoDup. }
  { exact Hparse. }
  { intros k0 _. apply lookup_fmap. }
  cbn [mbind outcome_bind coerce_pairs]. unfold getitem.
  rewrite (Hrest k) by (by left).
  split.
  - by intros ->.
  - intros s x -> Hf. cbn [fmap option_fmap option_map mbind outcome_bind].
    by rewrite Hf.
Qed.

Lemma raster_info_first_failure_witness :
  run (raster_info demo_py bare_session "elevation")
    = (Raised (KeyError "north"),
       [EvReadCommand "r.info" (info_args "elevation")]).
Proof.
  refine (proj1 (raster_info_first_failure demo_py bare_session "elevation"
                   [("min", float_or_null demo_py);
                    ("max", float_or_null demo_py)]
                   [("south", float_ demo_py); ("east", float_ demo_py);
                    ("west", float_ demo_py);
                    ("nsres", float_or_dms_ demo_py);
                    ("ewres", float_or_dms_ demo_py)]
                   "north" (float_ demo_py) eq_refl _) eq_refl).
  intros k' f' Hin.
  repeat (apply elem_of_cons in Hin as [[= -> ->]|Hin]);
    try (by apply elem_of_nil in Hin);
    eexists _, _; split; reflexivity.
Defined.

Lemma raster_info_returns_iff_witness :
  ∃ m, (run (raster_info demo_py demo_session "elevation")).1 = Returned m.
Proof.
  apply (proj2 (raster_info_returns_iff demo_py demo_session "elevation")).
  exact demo_info_complete.
Defined.

(** ** [raster_history]: the environment *)

(** X15: for a raster of the current mapset, when the environment has no
    [CMDLINE], [raster_history] raises [KeyError] for it; [r.support] is
    not run and no warning is emitted. *)
Theorem raster_history_missing_cmdline (py : pylib) (w : session)
    (map : string) :
  find_file_mapset w map = Some (gisenv_MAPSET w) →
  environ w !! "CMDLINE" = None →
  run (raster_history py w map) = (Raised (KeyError "CMDLINE"), []).
Proof.
  intros Hfound Hcmd. unfold raster_history.
  rewrite decide_True by done.
  unfold run, mbind, M_bind, lift, getitem. by rewrite Hcmd.
Qed.

Lemma raster_history_missing_cmdline_witness :
  run (raster_history demo_py plain_session "elevation")
    = (Raised (KeyError "CMDLINE"), []).
Proof.
  apply (raster_history_missing_cmdline demo_py plain_session "elevation");
    reflexivity.
Defined.
